(** * TestFlows log transforms: short console format and specification report

    A shallow embedding of

    - [testflows/_core/transform/log/short.py]: the streaming transform
      that renders parsed log messages in the short console format, and
    - [testflows/_core/cli/arg/handlers/report/specification.py]: the
      formatter of the test specification report, as far as the file can
      be read as Python (its line 137 cannot),

    together with the properties of both that the specification states.

    Conventions.  A Python [str] is a Rocq [string]; its characters are the
    code points below 256.  Python integers are [Z].  A Python [dict] used
    as a map is a [gmap]; a message (a parsed log line, a [dict] with a
    fixed set of keys per message kind) is a record.  Code that can raise
    returns a [result]. *)

From Stdlib Require Import ZArith Ascii String List Bool Lia.
From Stdlib Require Import DecimalString.
From stdpp Require Import base option list gmap strings.

Local Open Scope Z_scope.
Local Open Scope string_scope.
Local Open Scope list_scope.

(** ** Exceptions *)

Inductive exn : Type :=
| AttributeError (name : string)
| ValueError (arg : string)
| TypeError (what : string)
| StopIteration.

Inductive result (A : Type) : Type :=
| Ok (a : A)
| Raise (e : exn).

Arguments Ok {A} a.
Arguments Raise {A} e.

#[global] Instance result_ret : MRet result := fun A a => Ok a.

#[global] Instance result_bind : MBind result := fun A B k r =>
  match r with
  | Ok a => k a
  | Raise e => Raise e
  end.

(** ** Python string primitives *)

Module Py.

Definition code (c : ascii) : N := N_of_ascii c.

Definition between (lo hi : N) (c : ascii) : bool :=
  ((lo <=? code c) && (code c <=? hi))%N.

Definition is_upper (c : ascii) : bool := between 65 90 c.
Definition is_lower (c : ascii) : bool := between 97 122 c.
Definition is_digit (c : ascii) : bool := between 48 57 c.

(** [str.isspace] on one character, which is also the class [\s] of
    [re] on [str] patterns: TAB..CR, FS..US, SPACE, NEL and NBSP. *)
Definition is_space (c : ascii) : bool :=
  between 9 13 c || between 28 32 c
  || (code c =? 133)%N || (code c =? 160)%N.

(** [str.lower] on one character: [A-Z], and the upper-case letters of
    Latin-1 ([À]..[Þ] without the multiplication sign). *)
Definition lower_char (c : ascii) : ascii :=
  if is_upper c || (between 192 222 c && negb (code c =? 215)%N)
  then ascii_of_N (code c + 32)
  else c.

Fixpoint map (f : ascii → ascii) (s : string) : string :=
  match s with
  | EmptyString => EmptyString
  | String c r => String (f c) (map f r)
  end.

Definition lower : string → string := map lower_char.

(** The line feed. *)
Definition nl : string := String "010" EmptyString.

(** [s.count(c)] for a one-character [c]. *)
Fixpoint count (c : ascii) (s : string) : Z :=
  match s with
  | EmptyString => 0
  | String d r => (if Ascii.eqb d c then 1 else 0) + count c r
  end.

(** [s * n]: the empty string when [n <= 0]. *)
Fixpoint repeat (s : string) (n : nat) : string :=
  match n with
  | O => ""
  | S k => s +:+ repeat s k
  end.

Definition mul (s : string) (n : Z) : string := repeat s (Z.to_nat n).

(** [s.lstrip(chars)], with the set [chars] given as a predicate. *)
Fixpoint lstrip_by (p : ascii → bool) (s : string) : string :=
  match s with
  | EmptyString => EmptyString
  | String c r => if p c then lstrip_by p r else s
  end.

Fixpoint rstrip_by (p : ascii → bool) (s : string) : string :=
  match s with
  | EmptyString => EmptyString
  | String c r =>
      match rstrip_by p r with
      | EmptyString => if p c then EmptyString else String c EmptyString
      | r' => String c r'
      end
  end.

Definition lstrip : string → string := lstrip_by is_space.
Definition rstrip : string → string := rstrip_by is_space.
Definition strip (s : string) : string := lstrip (rstrip s).

Fixpoint startswith (p s : string) : bool :=
  match p, s with
  | EmptyString, _ => true
  | String a p', String b s' => Ascii.eqb a b && startswith p' s'
  | String _ _, EmptyString => false
  end.

(** [s.split(c)] for a one-character separator [c]: never empty. *)
Fixpoint split (c : ascii) (s : string) : list string :=
  match s with
  | EmptyString => [EmptyString]
  | String d r =>
      if Ascii.eqb d c then EmptyString :: split c r
      else match split c r with
           | h :: t => String d h :: t
           | [] => [String d EmptyString]
           end
  end.

(** [s.split(c, 1)] as used on a string known to contain [c]: the text
    before the first [c] and the text after it. *)
Fixpoint split1 (c : ascii) (s : string) : string * string :=
  match s with
  | EmptyString => (EmptyString, EmptyString)
  | String d r =>
      if Ascii.eqb d c then (EmptyString, r)
      else let '(a, b) := split1 c r in (String d a, b)
  end.

(** [sep.join(l)]. *)
Fixpoint join (sep : string) (l : list string) : string :=
  match l with
  | [] => ""
  | [x] => x
  | x :: r => x +:+ sep +:+ join sep r
  end.

(** Truth value of an optional string: [None] and [""] are false. *)
Definition truthy (o : option string) : bool :=
  match o with
  | Some (String _ _) => true
  | _ => false
  end.

(** [str(o)] for a value that is a string or [None]. *)
Definition str_of (o : option string) : string := default "None" o.

(** [str(n)] for an integer. *)
Definition str (n : Z) : string := NilZero.string_of_int (Z.to_int n).

Definition digit_val (c : ascii) : Z := Z.of_N (code c) - 48.

(** The digits of an integer literal: decimal digits, where single
    underscores may stand between two digits. *)
Fixpoint digits (s : string) (acc : Z) (after_digit : bool) : option Z :=
  match s with
  | EmptyString => if after_digit then Some acc else None
  | String c r =>
      if is_digit c then digits r (10 * acc + digit_val c) true
      else if Ascii.eqb c "_" && after_digit then digits r acc false
      else None
  end.

(** The white space that [int] drops around a numeral: TAB..CR, SPACE,
    NEL and NBSP, without the separators FS..US. *)
Definition is_int_space (c : ascii) : bool :=
  between 9 13 c || (code c =? 32)%N
  || (code c =? 133)%N || (code c =? 160)%N.

(** [int(s)] on a string: surrounding white space is dropped, a sign may
    lead; anything else raises [ValueError]. *)
Definition int (s : string) : result Z :=
  let body := lstrip_by is_int_space (rstrip_by is_int_space s) in
  let parsed :=
    match body with
    | String "-" r => Z.opp <$> digits r 0 false
    | String "+" r => digits r 0 false
    | _ => digits body 0 false
    end in
  match parsed with
  | Some n => Ok n
  | None => Raise (ValueError s)
  end.

End Py.

(** ** [testflows._core.name] *)

Module Name.

(** Modelled from the spec: the module [testflows/_core/name.py] is not
    among the sources.  A test id is a path whose segments are joined by
    the reserved separator. *)
Definition sep : ascii := "/"%char.

Definition is_sep (c : ascii) : bool := Ascii.eqb c sep.

(** Modelled from the spec: [basename] of [testflows/_core/name.py], the
    last path segment of a name. *)
Definition basename (name : string) : string :=
  List.last (Py.split sep name) "".

(** The text up to and including the last separator, if there is one. *)
Fixpoint head (name : string) : option string :=
  match name with
  | EmptyString => None
  | String c r =>
      match head r with
      | Some h => Some (String c h)
      | None => if is_sep c then Some (String c EmptyString) else None
      end
  end.

(** Modelled from the spec: [parentname] of [testflows/_core/name.py],
    the path with its last segment removed.  The separators that end the
    rest go with the segment, unless the rest is the root: the parent of
    a top-level id is the separator itself. *)
Definition parentname (name : string) : string :=
  match head name with
  | None => ""
  | Some h =>
      match Py.rstrip_by is_sep h with
      | EmptyString => h
      | h' => h'
      end
  end.

(** Modelled from the spec: [split] of [testflows/_core/name.py], the
    pair of the parent and the last segment, so that [split(name)[-1]] is
    the second component. *)
Definition split (name : string) : string * string :=
  (parentname name, basename name).

End Name.

(** ** [testflows._core.testtype] *)

Module TestType.

(** Modelled from the spec: the enumeration [TestType] of
    [testflows/_core/testtype.py], which is not among the sources, with
    the members that the specification lists ([Module] and [Test] are
    written with an underscore). *)
Inductive t : Type := Module_ | Suite | Test_ | Iteration | Step.

#[global] Instance eq_dec : EqDecision t.
Proof. solve_decision. Defined.

(** The member of the enumeration with a name, if there is one. *)
Definition of_name (name : string) : option t :=
  if String.eqb name "Module" then Some Module_
  else if String.eqb name "Suite" then Some Suite
  else if String.eqb name "Test" then Some Test_
  else if String.eqb name "Iteration" then Some Iteration
  else if String.eqb name "Step" then Some Step
  else None.

End TestType.

Module TestSubType.

(** Modelled from the spec: the enumeration [TestSubType] of
    [testflows/_core/testtype.py], with the members that the
    specification lists. *)
Inductive t : Type :=
| Feature | Scenario | Background
| Given | When | Then | By | But | Finally | And.

#[global] Instance eq_dec : EqDecision t.
Proof. solve_decision. Defined.

(** The member with a name, if there is one. *)
Definition of_name (name : string) : option t :=
  if String.eqb name "Feature" then Some Feature
  else if String.eqb name "Scenario" then Some Scenario
  else if String.eqb name "Background" then Some Background
  else if String.eqb name "Given" then Some Given
  else if String.eqb name "When" then Some When
  else if String.eqb name "Then" then Some Then
  else if String.eqb name "By" then Some By
  else if String.eqb name "But" then Some But
  else if String.eqb name "Finally" then Some Finally
  else if String.eqb name "And" then Some And
  else None.

(** The name of a member, [member.name]. *)
Definition name (s : t) : string :=
  match s with
  | Feature => "Feature" | Scenario => "Scenario"
  | Background => "Background"
  | Given => "Given" | When => "When" | Then => "Then"
  | By => "By" | But => "But" | Finally => "Finally" | And => "And"
  end.

(** The subtypes that the short format may rewrite to [And]. *)
Definition is_step_keyword (s : t) : bool :=
  match s with
  | Given | When | Then | By | But | Finally => true
  | _ => false
  end.

End TestSubType.

(** ** [testflows._core.message] *)

Module Message.

Inductive t : Type :=
| NONE | TEST | RESULT | EXCEPTION | NOTE | DEBUG | TRACE
| VERSION | PROTOCOL | INPUT | VALUE | METRIC | TICKET | ARGUMENT
| TAG | ATTRIBUTE | REQUIREMENT | EXAMPLE | NODE | MAP | STOP.

Definition name (m : t) : string :=
  match m with
  | NONE => "NONE" | TEST => "TEST" | RESULT => "RESULT"
  | EXCEPTION => "EXCEPTION" | NOTE => "NOTE" | DEBUG => "DEBUG"
  | TRACE => "TRACE" | VERSION => "VERSION" | PROTOCOL => "PROTOCOL"
  | INPUT => "INPUT" | VALUE => "VALUE" | METRIC => "METRIC"
  | TICKET => "TICKET" | ARGUMENT => "ARGUMENT" | TAG => "TAG"
  | ATTRIBUTE => "ATTRIBUTE" | REQUIREMENT => "REQUIREMENT"
  | EXAMPLE => "EXAMPLE" | NODE => "NODE" | MAP => "MAP" | STOP => "STOP"
  end.

Definition value (m : t) : Z :=
  match m with
  | NONE => 0 | TEST => 1 | RESULT => 2 | EXCEPTION => 3 | NOTE => 4
  | DEBUG => 5 | TRACE => 6 | VERSION => 7 | PROTOCOL => 8 | INPUT => 9
  | VALUE => 10 | METRIC => 11 | TICKET => 12 | ARGUMENT => 13
  | TAG => 14 | ATTRIBUTE => 15 | REQUIREMENT => 16 | EXAMPLE => 17
  | NODE => 18 | MAP => 19 | STOP => 20
  end.

End Message.

(** A parsed log line.  The fields are the keys that the formatters of the
    short format read; a message of one kind carries the keys of its kind
    and the common ones ([message_keyword], [test_id], [test_flags]).  The
    values that may be [None] in the log are options. *)
Record Msg : Type := mkMsg {
  message_keyword : string;
  test_id : string;
  test_flags : Z;
  test_type : string;
  test_subtype : option string;
  test_name : string;
  test_description : option string;
  result_type : string;
  result_test : string;
  result_message : option string;
  result_reason : option string;
  attribute_name : string;
  attribute_value : string;
  message : string
}.

#[global] Instance Msg_eq_dec : EqDecision Msg.
Proof. solve_decision. Defined.

(** ** [testflows/_core/transform/log/short.py] *)

Module Short.

(** The module-level state of [short.py]: the maps [tests_by_id] and
    [tests_by_parent] and the one-element list [last_message].  The
    tuple of the [TEST] formatter in [formatters] holds the two maps
    themselves, so [format_test] and [and_keyword] work on the same
    objects. *)
Record State : Type := mkState {
  tests_by_id : gmap string Msg;
  tests_by_parent : gmap string (list Msg);
  last_message : option Msg
}.

(** The state right after the module is imported. *)
Definition init : State :=
  {| tests_by_id := ∅; tests_by_parent := ∅; last_message := None |}.

(** [last_message[0] = msg]. *)
Definition with_last_message (msg : Msg) (st : State) : State :=
  {| tests_by_id := tests_by_id st;
     tests_by_parent := tests_by_parent st;
     last_message := Some msg |}.

(** [tests_by_parent.get(parent_id, [])]. *)
Definition children_of (st : State) (parent_id : string) : list Msg :=
  default [] (tests_by_parent st !! parent_id).

Definition indent : string := Py.mul " " 2.

(** [msg["test_id"].count('/')]. *)
Definition depth (msg : Msg) : Z := Py.count "/" (test_id msg).

(** [getattr(TestSubType, str(msg["test_subtype"]), 0)]: [None] stands
    for what is no member, the default [0] or another attribute of the
    class ([__doc__] and the like); it equals no member that has a name
    here, which is all that the formatters ask of it. *)
Definition get_subtype (msg : Msg) : option TestSubType.t :=
  TestSubType.of_name (Py.str_of (test_subtype msg)).

(** The raised-hand sign (U+270B, here in UTF-8) and the space that open
    an input prompt. *)
Definition raised_hand : string := "✋ ".

Section Formatters.

(** [testflows._core.cli.colors], outside the sources: the terminal
    decoration of a text with a colour and attributes, and the
    escape sequence that moves the cursor up. *)
Variable color : string → string → list string → string.
Variable cursor_up : string.

(** [textwrap.dedent] and [textwrap.indent] of the Python library. *)
Variable dedent : string → string.
Variable textwrap_indent : string → string → string.

(** [testflows._core.flags.SKIP] and [testflows.settings.show_skipped]
    (true here unless the setting is the object [False]). *)
Variable SKIP : Z.
Variable show_skipped : bool.

(** The names of the attributes of the class [TestType] other than the
    five members above ([__doc__], [__class__], [mro] and the like), as
    [testflows/_core/testtype.py], which is not among the sources, and
    its base classes define them: [getattr] finds them as it finds the
    members. *)
Variable type_attribute : string → bool.

(** [getattr(TestType, msg["test_type"])]: a member, or another
    attribute of the class, for which [None] stands here, an object that
    equals none of the members that [format_test] compares it with; a
    name that is neither raises [AttributeError]. *)
Definition get_type (msg : Msg) : result (option TestType.t) :=
  match TestType.of_name (test_type msg) with
  | Some t => Ok (Some t)
  | None =>
      if type_attribute (test_type msg) then Ok None
      else Raise (AttributeError (test_type msg))
  end.

Definition color_other (other : string) : string :=
  color other "white" ["dim"].

Definition color_keyword (keyword : string) : string :=
  color (Name.split keyword).2 "white" ["bold"].

Definition color_secondary_keyword (keyword : string) : string :=
  color (Name.split keyword).2 "white" ["bold"; "dim"].

Definition color_test_name (name : string) : string :=
  color (Name.split name).2 "white" [].

Definition color_result (result : string) : string :=
  if Py.startswith "X" result then color result "blue" ["bold"]
  else if String.eqb result "OK" then color result "green" ["bold"]
  else if String.eqb result "Skip" then color result "cyan" ["bold"]
  else color result "red" ["bold"].

Definition format_input (msg : Msg) (keyword : string) : string :=
  let out := Py.mul indent (depth msg) in
  out +:+ color (raised_hand +:+ message msg) "yellow" ["bold"]
      +:+ cursor_up +:+ Py.nl.

Definition format_multiline (text : string) (indent : string) : string :=
  let '(first, rest) := Py.split1 "010" (Py.rstrip text +:+ Py.nl) in
  let first := Py.strip first in
  let first := if Py.truthy (Some first) then first +:+ Py.nl else first in
  let out := Py.rstrip (first +:+ dedent (Py.rstrip rest)) in
  textwrap_indent out (indent +:+ "  ").

Definition format_test_description (msg : Msg) (indent : string) : string :=
  let desc := format_multiline (default "" (test_description msg)) indent in
  color desc "white" ["dim"] +:+ Py.nl.

(** The header is written when [last_message[0]] holds a message and
    that message is not an attribute; the name and the value follow. *)
Definition format_attribute (msg : Msg) (st : State) : string :=
  let _indent := Py.mul indent (depth msg - 1) in
  let out :=
    match last_message st with
    | Some last =>
        if negb (String.eqb (message_keyword last)
                            (Message.name Message.ATTRIBUTE))
        then [_indent +:+ Py.mul " " 2
                +:+ color_secondary_keyword "Attributes"]
        else []
    | None => []
    end in
  let out := (out ++ [color (indent +:+ Py.mul " " 2
                               +:+ attribute_name msg) "white" ["dim"]])%list in
  let out := (out ++ [color (indent +:+ Py.mul " " 4
                               +:+ attribute_value msg) "white" ["dim"]])%list in
  Py.join Py.nl out +:+ Py.nl.

(** [and_keyword]: the lookups go to the module-level maps.  A message
    is a [dict] with keys, so it counts as true wherever one is
    tested ([if prev and ...], [if parent and ...]). *)
Definition and_keyword (msg : Msg) (parent_id : string) (keyword : string)
    (subtype : TestSubType.t) (st : State) : string :=
  let siblings := children_of st parent_id in
  let prev :=
    if bool_decide (1 < length siblings)%nat
    then siblings !! (length siblings - 2)%nat
    else None in
  let keyword :=
    match prev with
    | Some prev =>
        if bool_decide (get_subtype prev = Some subtype)
           && bool_decide (tests_by_parent st !! test_id prev = None)
        then "And" else keyword
    | None => keyword
    end in
  let parent := tests_by_id st !! parent_id in
  match parent with
  | Some parent =>
      if bool_decide (get_subtype parent = Some subtype)
         && bool_decide (length siblings = 1%nat)
      then "And" else keyword
  | None => keyword
  end.

(** The first statements of [format_test]: the message is appended to
    the list of its parent, which is created when missing, and stored
    under its own id. *)
Definition record (msg : Msg) (st : State) : State :=
  let parent := Name.parentname (test_id msg) in
  let by_parent :=
    match tests_by_parent st !! parent with
    | None => <[parent := []]> (tests_by_parent st)
    | Some _ => tests_by_parent st
    end in
  let by_parent := alter (fun l => (l ++ [msg])%list) parent by_parent in
  {| tests_by_id := <[test_id msg := msg]> (tests_by_id st);
     tests_by_parent := by_parent;
     last_message := last_message st |}.

(** The chain of conditions of [format_test] that extends [keyword];
    [test_type] is what [get_type] gave, and what equals none of
    [Module], [Suite], [Iteration] and [Step] goes to the last branch. *)
Definition test_keyword (msg : Msg) (keyword : string)
    (test_type : option TestType.t) (st : State) : string :=
  let parent := Name.parentname (test_id msg) in
  let test_subtype := get_subtype msg in
  match test_type with
  | Some TestType.Module_ => keyword +:+ "Module"
  | Some TestType.Suite =>
      if bool_decide (test_subtype = Some TestSubType.Feature)
      then keyword +:+ "Feature" else keyword +:+ "Suite"
  | Some TestType.Iteration => keyword +:+ "Iteration"
  | Some TestType.Step =>
      match test_subtype with
      | Some TestSubType.And => keyword +:+ "And"
      | Some TestSubType.Given =>
          keyword +:+ and_keyword msg parent "Given" TestSubType.Given st
      | Some TestSubType.When =>
          keyword +:+ and_keyword msg parent "When" TestSubType.When st
      | Some TestSubType.Then =>
          keyword +:+ and_keyword msg parent "Then" TestSubType.Then st
      | Some TestSubType.By =>
          keyword +:+ and_keyword msg parent "By" TestSubType.By st
      | Some TestSubType.But =>
          keyword +:+ and_keyword msg parent "But" TestSubType.But st
      | Some TestSubType.Finally =>
          keyword +:+ and_keyword msg parent "Finally" TestSubType.Finally st
      | _ => keyword +:+ "Step"
      end
  | _ =>
      match test_subtype with
      | Some TestSubType.Scenario => keyword +:+ "Scenario"
      | Some TestSubType.Background => keyword +:+ "Background"
      | _ => keyword +:+ "Test"
      end
  end.

(** The text that [format_test] returns for a keyword. *)
Definition test_line (msg : Msg) (keyword : string) : string :=
  let _keyword := color_keyword keyword in
  let _name := color_test_name (Name.split (test_name msg)).2 in
  let _indent := Py.mul indent (depth msg - 1) in
  let out := _indent +:+ _keyword +:+ " " +:+ _name +:+ Py.nl in
  if Py.truthy (test_description msg)
  then out +:+ format_test_description msg _indent
  else out.

(** [format_test]: the maps are updated before the type is looked up,
    so they stay updated when [get_type] raises. *)
Definition format_test (msg : Msg) (keyword : string) (st : State)
    : State * result string :=
  let st := record msg st in
  (st, test_type ← get_type msg;
       mret (test_line msg (test_keyword msg keyword test_type st))).

Definition format_result (msg : Msg) : string :=
  let result := result_type msg in
  let _result := color_result result in
  let _test := color_test_name (Name.basename (result_test msg)) in
  let _indent := Py.mul indent (depth msg - 1) in
  let out := _indent +:+ _result in
  let out :=
    if String.eqb result "Fail" || String.eqb result "Error"
       || String.eqb result "Null"
    then
      let out := out +:+ " " +:+ _test in
      if Py.truthy (result_message msg)
      then out +:+ color_test_name ","
               +:+ " "
               +:+ color (Py.lstrip (format_multiline
                             (default "" (result_message msg)) _indent))
                         "yellow" ["bold"]
      else out
    else if Py.startswith "X" result
    then
      let out := out +:+ " " +:+ _test in
      if Py.truthy (result_reason msg)
      then out +:+ color_test_name ","
               +:+ " "
               +:+ color (default "" (result_reason msg)) "blue" ["bold"]
      else out
    else out in
  out +:+ Py.nl.

(** The table [formatters]: the formatter of a message kind, with the
    arguments that the table binds. *)
Inductive Formatter : Type :=
| FormatInput | FormatTest | FormatResult | FormatAttribute.

Definition formatters (keyword : string) : option Formatter :=
  if String.eqb keyword (Message.name Message.INPUT) then Some FormatInput
  else if String.eqb keyword (Message.name Message.TEST) then Some FormatTest
  else if String.eqb keyword (Message.name Message.RESULT)
  then Some FormatResult
  else if String.eqb keyword (Message.name Message.ATTRIBUTE)
  then Some FormatAttribute
  else None.

(** [formatter[0](line, *formatter[1:])]. *)
Definition call (f : Formatter) (line : Msg) (st : State)
    : State * result string :=
  match f with
  | FormatInput => (st, Ok (format_input line ""))
  | FormatTest => format_test line "" st
  | FormatResult => (st, Ok (format_result line))
  | FormatAttribute => (st, Ok (format_attribute line st))
  end.

(** [flags & SKIP and settings.show_skipped is False]. *)
Definition suppressed (line : Msg) : bool :=
  negb (Z.land (test_flags line) SKIP =? 0)%Z && negb show_skipped.

(** One round of the loop of [transform]: the generator is sent
    [line] and yields a text or [None], unless a formatter raises. *)
Definition send (line : Msg) (st : State)
    : State * result (option string) :=
  let msg := line in
  match formatters (message_keyword line) with
  | Some formatter =>
      if suppressed line then (st, Ok None)
      else
        match call formatter line st with
        | (st, Ok out) => (with_last_message msg st, Ok (Some out))
        | (st, Raise e) => (st, Raise e)
        end
  | None => (st, Ok None)
  end.

(** A generator made by [transform()] that is sent the lines of a log
    in turn: what it yields, up to the first exception, after which
    the generator is finished. *)
Fixpoint run (lines : list Msg) (st : State)
    : State * list (option string) * option exn :=
  match lines with
  | [] => (st, [], None)
  | line :: rest =>
      match send line st with
      | (st, Ok out) =>
          let '(st, outs, e) := run rest st in (st, out :: outs, e)
      | (st, Raise e) => (st, [], Some e)
      end
  end.

(** A generator object made by [transform()].  Its frame holds the local
    variables [line], [msg], [formatter] and [flags], which are assigned
    anew in every round of the loop, and no map: all that a generator
    keeps from one round to the next is where it stands, before its first
    [yield], at a [yield], or at its end. *)
Inductive Generator : Type := Created | Suspended | Finished.

(** [transform()]: a new generator object.  The call runs no statement
    of the body and touches nothing of the module. *)
Definition transform : Generator := Created.

(** [g.send(value)], where [next(g)] is [g.send(None)].  A generator that
    has not started takes [None] only and runs to its first [yield],
    which yields [None]; at a [yield], [None] goes round the loop without
    a formatter, and a message goes through [send]; an exception of a
    formatter leaves the generator and ends it; a generator at its end
    raises [StopIteration]. *)
Definition generator_send (g : Generator) (value : option Msg) (st : State)
    : Generator * State * result (option string) :=
  match g, value with
  | Finished, _ => (Finished, st, Raise StopIteration)
  | Created, Some _ =>
      (Created, st,
       Raise (TypeError
                "can't send non-None value to a just-started generator"))
  | Created, None => (Suspended, st, Ok None)
  | Suspended, None => (Suspended, st, Ok None)
  | Suspended, Some line =>
      match send line st with
      | (st, Ok out) => (Suspended, st, Ok out)
      | (st, Raise e) => (Finished, st, Raise e)
      end
  end.

(** What comes of rendering a log with a generator: the generator and the
    state of the module afterwards, the values that were yielded, and the
    exception that ended the rendering, if one did. *)
Record Rendering : Type := mkRendering {
  generator : Generator;
  left_state : State;
  yielded : list (option string);
  raised : option exn
}.

(** The lines of a log are sent to a generator in turn, up to the first
    exception. *)
Fixpoint feed (g : Generator) (lines : list Msg) (st : State) : Rendering :=
  match lines with
  | [] => mkRendering g st [] None
  | line :: rest =>
      match generator_send g (Some line) st with
      | (g, st, Ok out) =>
          let r := feed g rest st in
          mkRendering (generator r) (left_state r) (out :: yielded r) (raised r)
      | (g, st, Raise e) => mkRendering g st [] (Some e)
      end
  end.

(** A log is rendered by a generator of its own: the generator is made,
    started with [next], and sent the lines. *)
Definition render (lines : list Msg) (st : State) : Rendering :=
  let g := transform in
  let '(g, st, _) := generator_send g None st in
  feed g lines st.

End Formatters.

End Short.

(** ** [testflows/_core/cli/arg/handlers/report/specification.py]

    Line 137 of the file, in the local function [add_steps] of
    [format_tests], is not valid Python as it stands: the quotes around
    the [1] of [markdown="1"] are not escaped and end the string literal
    that they stand in.  Nothing is put in its place here: [add_steps],
    and with it the text of a whole section and the body that
    [format_tests] returns, are not embedded.  What is embedded of
    [format_tests] is what it does for a test before it calls
    [add_steps], lines 99 to 131 and 144, and the entry of the table of
    contents of line 149, as these lines are written. *)

Module Specification.

(** The double quote, which the report writes around attribute values
    of its HTML fragments. *)
Definition dq : string := String "034" EmptyString.

Definition newline : string := Py.nl.

(** The records of the data that [Handler.data] builds: attributes,
    tags and requirements of a test, and the test with its steps.  A
    test has the keys that the formatter reads ([level] and [subtype] are
    not among them). *)
Record Attribute : Type := {
  attribute_name : string;
  attribute_value : string
}.

Record Tag : Type := { tag_value : string }.

Record Requirement : Type := {
  requirement_name : string;
  requirement_version : string;
  requirement_description : string
}.

#[warnings="-register-all"]
Inductive Test : Type := mkTest {
  path : string;
  keyword : string;
  type : string;
  description : option string;
  attributes : list Attribute;
  tags : list Tag;
  requirements : list Requirement;
  name : string;
  id : string;
  steps : list Test
}.

(** [re.sub(r"[...]+", repl, s)] for a character class given as a
    predicate: every maximal run of characters of the class is replaced
    by [repl].  [in_run] tells that the previous character was in the
    class, so the run it belongs to is already replaced. *)
Fixpoint re_sub_runs (class : ascii → bool) (repl : string)
    (in_run : bool) (s : string) : string :=
  match s with
  | EmptyString => EmptyString
  | String c r =>
      if class c
      then (if in_run then "" else repl) +:+ re_sub_runs class repl true r
      else String c (re_sub_runs class repl false r)
  end.

Definition re_sub (class : ascii → bool) (repl s : string) : string :=
  re_sub_runs class repl false s.

(** The class [[^a-zA-Z0-9-_\s]]. *)
Definition not_anchor_char (c : ascii) : bool :=
  negb (Py.is_lower c || Py.is_upper c || Py.is_digit c
        || Ascii.eqb c "-" || Ascii.eqb c "_" || Py.is_space c).

(** The local function [anchor] of [format_tests]. *)
Definition anchor (heading : string) : string :=
  re_sub Py.is_space "-" (re_sub not_anchor_char "" (Py.lower heading)).

(** The list comprehension that numbers a section: the segments of the
    id after the first separator, the first one replaced by [1] and the
    others read as integers and incremented. *)
Fixpoint section_numbers (i : nat) (segments : list string)
    : result (list string) :=
  match segments with
  | [] => Ok []
  | p :: rest =>
      x ← (if bool_decide (i = 0%nat) then Ok "1"
           else n ← Py.int p; mret (Py.str (n + 1)));
      xs ← section_numbers (S i) rest;
      mret (x :: xs)
  end.

Definition section_id (test_id : string) : result string :=
  numbers ← section_numbers 0 (tail (Py.split Name.sep test_id));
  mret (Py.join "." numbers).

Definition is_hash_or_space (c : ascii) : bool :=
  Ascii.eqb c "#" || Ascii.eqb c " ".

(** The [heading] that is cut out of a line, [line.lstrip("# ").strip()]. *)
Definition heading_of (line : string) : string :=
  Py.strip (Py.lstrip_by is_hash_or_space line).

Section Formatter.

(** [str.upper], and [textwrap.dedent] and [textwrap.indent], of the
    Python library. *)
Variable upper : string → string.
Variable dedent : string → string.
Variable textwrap_indent : string → string → string.

(** The first line of a section, [s[-1]] right after it is appended. *)
Definition heading_line (id : string) (test : Test) : string :=
  "### 2." +:+ id +:+ " " +:+ upper (keyword test)
    +:+ " **" +:+ name test +:+ "**" +:+ newline.

(** [Formatter.format_multiline] without an indent. *)
Definition format_multiline (text : string) : string :=
  let '(first, rest) := Py.split1 "010" (Py.rstrip text +:+ newline) in
  let first := Py.strip first in
  let first := if Py.truthy (Some first) then first +:+ newline else first in
  Py.rstrip (first +:+ dedent (Py.rstrip rest)).

Definition attribute_row (attr : Attribute) : string :=
  "||**" +:+ attribute_name attr +:+ "**||"
    +:+ attribute_value attr +:+ "||".

Definition requirement_rows (req : Requirement) : list string :=
  [ "* **" +:+ requirement_name req +:+ "**  ";
    textwrap_indent
      ("<div markdown=" +:+ dq +:+ "1" +:+ dq +:+ " class=" +:+ dq
         +:+ "text-small" +:+ dq +:+ ">version: "
         +:+ requirement_version req +:+ "</div>") "  ";
    textwrap_indent
      ("<div markdown=" +:+ dq +:+ "1" +:+ dq +:+ " class=" +:+ dq
         +:+ "test-description" +:+ dq +:+ ">"
         +:+ Py.strip (requirement_description req) +:+ "</div>") "  " ].

(** The lines of a section between its name and its procedure. *)
Definition section_details (test : Test) : list string :=
  ((match attributes test with
    | [] => []
    | attrs => ["**Attributes**  " +:+ newline]
                 ++ List.map attribute_row attrs ++ [newline]
    end)
   ++ (match tags test with
       | [] => []
       | ts => ["**Tags**  "
                  +:+ Py.join ", "
                        (List.map (fun tag => "`" +:+ tag_value tag +:+ "`") ts);
                newline]
       end)
   ++ (if Py.truthy (description test)
       then ["##### DESCRIPTION" +:+ newline;
             format_multiline (default "" (description test));
             newline]
       else [])
   ++ (match requirements test with
       | [] => []
       | reqs => ["##### REQUIREMENTS" +:+ newline]
                   ++ List.concat (List.map requirement_rows reqs)
                   ++ [newline]
       end))%list.

(** The entry of the table of contents for a section, line 149. *)
Definition toc_entry (id : string) (test : Test) (heading : string)
    : string :=
  let name := upper (keyword test) +:+ " " +:+ name test in
  Py.mul "  " (Z.of_nat (length (Py.split "." id)))
    +:+ "* 2." +:+ id +:+ " [" +:+ name +:+ "](#"
    +:+ anchor heading +:+ ")".

(** The body of the loop of [format_tests] for one test, without the
    call of [add_steps]: the lines that are appended to [s] before that
    call, from the heading line to the title of the procedure, and the
    entry that is appended to the table of contents after it.  The number
    of the section comes first, and nothing is appended when it raises. *)
Definition section_frame (test : Test) : result (list string * string) :=
  id ← section_id (id test);
  let s := [heading_line id test] in
  let heading := heading_of (List.last s "") in
  let s := (s ++ ["**Name** `" +:+ path test +:+ "`" +:+ newline])%list in
  let s := (s ++ section_details test)%list in
  let s := (s ++ ["##### PROCEDURE" +:+ newline])%list in
  mret (s, toc_entry id test heading).

End Formatter.

End Specification.

(** ** Sample messages and a plain terminal

    Messages of each kind with the keys of the other kinds left empty,
    and an instance of the parameters of the formatters for evaluating
    them: a terminal without decoration, texts of one line without a
    margin, a skip bit, two attributes of the class [TestType], and
    capitals for the letters [a-z]. *)

Module Sample.

Definition test_msg (id type : string) (subtype : option string)
    (name : string) : Msg :=
  {| message_keyword := "TEST"; test_id := id; test_flags := 0;
     test_type := type; test_subtype := subtype; test_name := name;
     test_description := None;
     result_type := ""; result_test := ""; result_message := None;
     result_reason := None; attribute_name := ""; attribute_value := "";
     message := "" |}.

Definition result_msg (id result : string) : Msg :=
  {| message_keyword := "RESULT"; test_id := id; test_flags := 0;
     test_type := ""; test_subtype := None; test_name := "";
     test_description := None;
     result_type := result; result_test := id; result_message := None;
     result_reason := None; attribute_name := ""; attribute_value := "";
     message := "" |}.

Definition attribute_msg (id name value : string) : Msg :=
  {| message_keyword := "ATTRIBUTE"; test_id := id; test_flags := 0;
     test_type := ""; test_subtype := None; test_name := "";
     test_description := None;
     result_type := ""; result_test := ""; result_message := None;
     result_reason := None; attribute_name := name;
     attribute_value := value; message := "" |}.

Definition input_msg (id text : string) : Msg :=
  {| message_keyword := "INPUT"; test_id := id; test_flags := 0;
     test_type := ""; test_subtype := None; test_name := "";
     test_description := None;
     result_type := ""; result_test := ""; result_message := None;
     result_reason := None; attribute_name := ""; attribute_value := "";
     message := text |}.

Definition note_msg (id : string) : Msg :=
  {| message_keyword := "NOTE"; test_id := id; test_flags := 0;
     test_type := ""; test_subtype := None; test_name := "";
     test_description := None;
     result_type := ""; result_test := ""; result_message := None;
     result_reason := None; attribute_name := ""; attribute_value := "";
     message := "" |}.

(** The scenario of the specification: a feature [/A] with Given steps. *)
Definition feature_A : Msg :=
  test_msg "/A" "Suite" (Some "Feature") "/A".

Definition given_parent_A : Msg :=
  test_msg "/A" "Step" (Some "Given") "/A".

Definition given_1 : Msg :=
  test_msg "/A/1" "Step" (Some "Given") "/A/setup".

Definition given_2 : Msg :=
  test_msg "/A/2" "Step" (Some "Given") "/A/more setup".

Definition given_3 : Msg :=
  test_msg "/A/3" "Step" (Some "Given") "/A/even more setup".

(** Attributes of the test [/A] and of a test five separators deep, and
    messages of a test whose id has no separator. *)
Definition attribute_1 : Msg := attribute_msg "/A" "owner" "me".

Definition attribute_2 : Msg := attribute_msg "/A" "area" "core".

Definition deep_attribute : Msg := attribute_msg "/A/B/C/D/E" "owner" "me".

Definition flat_test : Msg := test_msg "A" "Test" None "A".

Definition flat_input : Msg := input_msg "A" "ready?".

(** A test of the report whose name has capitals and punctuation, the
    lines that open its section and its entry in the table of contents. *)
Definition scenario : Specification.Test :=
  Specification.mkTest "/Suite/My test, (v1.0)!" "Scenario" "Test" None
    [] [] [] "My test, (v1.0)!" "/0/1" [].

Definition scenario_opening : list string :=
  ["### 2.1.2 SCENARIO **My test, (v1.0)!**" +:+ Py.nl;
   "**Name** `/Suite/My test, (v1.0)!`" +:+ Py.nl;
   "##### PROCEDURE" +:+ Py.nl].

Definition scenario_entry : string :=
  "    * 2.1.2 [SCENARIO My test, (v1.0)!](#212-scenario-my-test-v10)".

(** A When step that follows the Given steps of the feature [/A]. *)
Definition when_2 : Msg :=
  test_msg "/A/2" "Step" (Some "When") "/A/act".

(** A test of the report with a segment of its id that is no number. *)
Definition misnumbered : Specification.Test :=
  Specification.mkTest "/Suite/Odd" "Scenario" "Test" None
    [] [] [] "Odd" "/0/1/two/3" [].

(** A fourth Given step and a third attribute of the feature [/A]. *)
Definition given_4 : Msg :=
  test_msg "/A/4" "Step" (Some "Given") "/A/the last setup".

Definition attribute_3 : Msg := attribute_msg "/A" "level" "high".

(** A test whose type names nothing in the class [TestType], and one
    whose type names an attribute of the class that is no member. *)
Definition untyped : Msg := test_msg "/B" "Bogus" None "/B".

Definition doc_typed : Msg := test_msg "/B" "__doc__" None "/B".

(** Results of the test [/A]: a failure with a message, and an expected
    failure with a reason. *)
Definition failed : Msg :=
  {| message_keyword := "RESULT"; test_id := "/A"; test_flags := 0;
     test_type := ""; test_subtype := None; test_name := "";
     test_description := None;
     result_type := "Fail"; result_test := "/A";
     result_message := Some "boom"; result_reason := None;
     attribute_name := ""; attribute_value := ""; message := "" |}.

Definition expected_failure : Msg :=
  {| message_keyword := "RESULT"; test_id := "/A"; test_flags := 0;
     test_type := ""; test_subtype := None; test_name := "";
     test_description := None;
     result_type := "XFail"; result_test := "/A";
     result_message := None; result_reason := Some "known issue";
     attribute_name := ""; attribute_value := ""; message := "" |}.

Definition color (text : string) (_ : string) (_ : list string) : string :=
  text.
Definition cursor_up : string := "".
Definition dedent (text : string) : string := text.
Definition textwrap_indent (text prefix : string) : string :=
  prefix +:+ text.
Definition SKIP : Z := 4.

(** Two of the attributes that every class has. *)
Definition type_attribute (name : string) : bool :=
  String.eqb name "__doc__" || String.eqb name "__class__".

(** [str.upper] on the letters [a-z], for keywords written with them. *)
Definition upper_char (c : ascii) : ascii :=
  if Py.is_lower c then ascii_of_N (Py.code c - 32) else c.

Definition upper : string → string := Py.map upper_char.

Definition send : Msg → Short.State → Short.State * result (option string) :=
  Short.send color cursor_up dedent textwrap_indent SKIP true type_attribute.

Definition run : list Msg → Short.State
    → Short.State * list (option string) * option exn :=
  Short.run color cursor_up dedent textwrap_indent SKIP true type_attribute.

Definition render : list Msg → Short.State → Short.Rendering :=
  Short.render color cursor_up dedent textwrap_indent SKIP true type_attribute.

End Sample.

(** ** Vocabulary of the properties *)

Module Tracker.

Import Short.

(** A list of children exists only from its first child on. *)
Definition wf (st : State) : Prop :=
  ∀ parent_id l, tests_by_parent st !! parent_id = Some l → l ≠ [].

(** The first rule of the And-collapse for a step [msg] of subtype [S]
    that is recorded in the state [st]: the sibling recorded last under
    the parent of [msg] has subtype [S], and no child of that sibling is
    recorded when the keyword of [msg] is resolved. *)
Definition collapses_on_sibling (msg : Msg) (S : TestSubType.t)
    (st : State) : Prop :=
  ∃ prev,
    last (children_of st (Name.parentname (test_id msg))) = Some prev
    ∧ get_subtype prev = Some S
    ∧ children_of (record msg st) (test_id prev) = [].

(** The second rule: the parent of [msg] is recorded with subtype [S]
    and [msg] is the first child recorded under it. *)
Definition collapses_on_parent (msg : Msg) (S : TestSubType.t)
    (st : State) : Prop :=
  ∃ parent,
    tests_by_id (record msg st) !! Name.parentname (test_id msg)
      = Some parent
    ∧ get_subtype parent = Some S
    ∧ children_of st (Name.parentname (test_id msg)) = [].

(** The two tests of [and_keyword], for a step that [format_test] has
    just recorded in [st]. *)
Definition sibling_test (msg : Msg) (S : TestSubType.t) (st : State) : bool :=
  match last (children_of st (Name.parentname (test_id msg))) with
  | Some prev =>
      bool_decide (get_subtype prev = Some S)
      && bool_decide (tests_by_parent (record msg st) !! test_id prev = None)
  | None => false
  end.

Definition parent_test (msg : Msg) (S : TestSubType.t) (st : State) : bool :=
  match tests_by_id (record msg st) !! Name.parentname (test_id msg) with
  | Some parent =>
      bool_decide (get_subtype parent = Some S)
      && bool_decide
           (length (children_of (record msg st)
                      (Name.parentname (test_id msg))) = 1%nat)
  | None => false
  end.

(** A [TEST] message of a step of subtype [S] under the parent [P]. *)
Definition step_under (S : TestSubType.t) (P : string) (msg : Msg) : Prop :=
  message_keyword msg = Message.name Message.TEST
  ∧ test_type msg = "Step"
  ∧ get_subtype msg = Some S
  ∧ Name.parentname (test_id msg) = P.

(** The state after the messages [msgs] are recorded in turn. *)
Definition recorded (msgs : list Msg) (st : State) : State :=
  foldl (fun st msg => record msg st) st msgs.

End Tracker.

(** The texts that the formatters put together, and the conditions they
    test, named for the statements below. *)
Module Lines.

Import Short.

(** The results whose line names the test: [Fail], [Error], [Null] and
    the ones that start with [X]. *)
Definition names_test (result : string) : bool :=
  String.eqb result "Fail" || String.eqb result "Error"
  || String.eqb result "Null" || Py.startswith "X" result.

(** The failures: [Fail], [Error] and [Null]. *)
Definition is_failure (result : string) : bool :=
  String.eqb result "Fail" || String.eqb result "Error"
  || String.eqb result "Null".

(** An indentation of [n] levels of two spaces. *)
Definition levels (n : Z) : string := Py.mul " " (2 * n).

(** The header is due when some message was rendered last and it is not
    an attribute. *)
Definition header_due (st : State) : bool :=
  match last_message st with
  | Some last =>
      negb (String.eqb (message_keyword last) (Message.name Message.ATTRIBUTE))
  | None => false
  end.

Section Texts.

Variable color : string → string → list string → string.

Definition attribute_header (msg : Msg) : string :=
  levels (depth msg - 1) +:+ "  " +:+ color_secondary_keyword color "Attributes".

Definition attribute_pair (msg : Msg) : string :=
  color ("    " +:+ attribute_name msg) "white" ["dim"] +:+ Py.nl
    +:+ color ("      " +:+ attribute_value msg) "white" ["dim"] +:+ Py.nl.

End Texts.

Section Details.

Variable color : string → string → list string → string.
Variable dedent : string → string.
Variable textwrap_indent : string → string → string.

(** The text that explains a result, if it has one: the message of a
    failure, formatted as a text of several lines under the indentation
    of the test and without the white space that leads it, or the reason
    of a result that starts with [X]. *)
Definition explanation (msg : Msg) : option string :=
  if is_failure (result_type msg)
  then if Py.truthy (result_message msg)
       then Some (color (Py.lstrip
                           (Short.format_multiline dedent textwrap_indent
                              (default "" (result_message msg))
                              (levels (depth msg - 1))))
                        "yellow" ["bold"])
       else None
  else if Py.startswith "X" (result_type msg)
          && Py.truthy (result_reason msg)
       then Some (color (default "" (result_reason msg)) "blue" ["bold"])
       else None.

(** What follows the name of the test in the line of a result: a comma, a
    space and the explanation, or nothing. *)
Definition result_details (msg : Msg) : string :=
  match explanation msg with
  | Some text => color_test_name color "," +:+ " " +:+ text
  | None => ""
  end.

End Details.

End Lines.

(** The slug of a heading and the numbers of a section, in the words of
    the specification of the report. *)
Module Report.

Definition is_alphanumeric (c : ascii) : bool :=
  Py.is_lower c || Py.is_upper c || Py.is_digit c.

(** The characters that a slug keeps: alphanumerics, white space, the
    hyphen and the underscore. *)
Definition kept (c : ascii) : bool :=
  is_alphanumeric c || Py.is_space c || Ascii.eqb c "-" || Ascii.eqb c "_".

Fixpoint keep (s : string) : string :=
  match s with
  | EmptyString => EmptyString
  | String c r => if kept c then String c (keep r) else keep r
  end.

(** Every run of white space becomes one hyphen: a white space that is
    followed by another one goes away, the last one of a run turns into
    the hyphen. *)
Fixpoint hyphenate (s : string) : string :=
  match s with
  | EmptyString => EmptyString
  | String c r =>
      if Py.is_space c
      then match r with
           | String d _ =>
               if Py.is_space d then hyphenate r else String "-" (hyphenate r)
           | EmptyString => String "-" EmptyString
           end
      else String c (hyphenate r)
  end.

Definition slug (heading : string) : string :=
  hyphenate (keep (Py.lower heading)).

(** A text without its first character. *)
Definition after_hyphen (s : string) : string :=
  match s with
  | EmptyString => EmptyString
  | String _ t => t
  end.

(** A decimal numeral and the number it writes. *)
Fixpoint all_digits (s : string) : bool :=
  match s with
  | EmptyString => true
  | String c r => Py.is_digit c && all_digits r
  end.

Definition is_numeral (s : string) : bool :=
  match s with
  | EmptyString => false
  | String _ _ => all_digits s
  end.

Definition numeral_value (s : string) : Z :=
  fold_left (fun n c => 10 * n + Py.digit_val c) (list_ascii_of_string s) 0.

(** The id of a test: the separator before each of its segments. *)
Fixpoint path_of (segments : list string) : string :=
  match segments with
  | [] => EmptyString
  | p :: rest => String Name.sep (p +:+ path_of rest)
  end.

(** The text of a heading without the marks of its level; [upper] puts
    the keyword in capitals. *)
Definition heading_text (upper : string → string) (number : string)
    (test : Specification.Test) : string :=
  "2." +:+ number +:+ " " +:+ upper (Specification.keyword test)
    +:+ " **" +:+ Specification.name test +:+ "**".

End Report.

(** [sub in s]. *)
Fixpoint contains (sub s : string) : bool :=
  Py.startswith sub s
  || match s with
     | EmptyString => false
     | String _ r => contains sub r
     end.

(** ** Vocabulary of further properties *)

Module Invariant.

Import Short.

(** The two maps of the tracker agree: a message stored under an id has
    that id and stands in the list of its parent, and a message in the
    list of a parent has that parent and an entry under its own id. *)
Definition consistent (st : State) : Prop :=
  (∀ id m,
      tests_by_id st !! id = Some m →
      test_id m = id ∧ m ∈ children_of st (Name.parentname id))
  ∧ (∀ parent_id m,
        m ∈ children_of st parent_id →
        Name.parentname (test_id m) = parent_id
        ∧ is_Some (tests_by_id st !! test_id m)).

(** A text that ends with a line feed. *)
Definition ends_line (out : string) : Prop := ∃ body, out = body +:+ Py.nl.

End Invariant.

(** The characters of an anchor, and a test for all characters of a
    text. *)
Module Sections.

Definition anchor_char (c : ascii) : bool :=
  Py.is_lower c || Py.is_digit c || Ascii.eqb c "-" || Ascii.eqb c "_".

Fixpoint all_chars (p : ascii → bool) (s : string) : bool :=
  match s with
  | EmptyString => true
  | String c r => p c && all_chars p r
  end.

End Sections.

(** ** The company of a report: [Handler.company] and the blocks that
    [Formatter] makes of it *)

Module Company.

(** The arguments of the command line that [Handler.company] reads: the
    name for the copyright notice, the confidential flag, and the content
    of the logo file when one is given. *)
Record Args : Type := {
  copyright : option string;
  confidential : bool;
  logo : option (list Byte.byte)
}.

(** The [dict] that [Handler.company] builds: each key is there or not. *)
Record t : Type := {
  name : option string;
  is_confidential : option bool;
  logo_data : option (list Byte.byte)
}.

(** [Handler.company]: a key is set when its argument counts as true; an
    open file always does, so the logo is set to what the file holds. *)
Definition company (args : Args) : t :=
  {| name := if Py.truthy (copyright args) then copyright args else None;
     is_confidential := if confidential args then Some true else None;
     logo_data := logo args |}.

Definition logo_img (data : string) : string :=
  "<img class=" +:+ Specification.dq +:+ "logo" +:+ Specification.dq
    +:+ " src=" +:+ Specification.dq +:+ "data:image/png;base64," +:+ data
    +:+ Specification.dq +:+ " alt=" +:+ Specification.dq +:+ "logo"
    +:+ Specification.dq +:+ "/>".

Section Blocks.

(** [base64.b64encode(...).decode("utf-8")] of the Python library, and
    [copyright] of [testflows._core.cli.arg.handlers.report.copyright],
    which is not among the sources. *)
Variable b64encode : list Byte.byte → string.
Variable copyright_notice : string → string.

(** [Formatter.format_logo]. *)
Definition format_logo (company : t) : string :=
  match logo_data company with
  | Some (b :: data) =>
      Py.nl +:+ "<p>" +:+ logo_img (b64encode (b :: data)) +:+ "</p>" +:+ Py.nl
  | _ => ""
  end.

(** [Formatter.format_confidential]. *)
Definition format_confidential (company : t) : string :=
  match is_confidential company with
  | Some true =>
      Py.nl +:+ "<p class=" +:+ Specification.dq +:+ "confidential"
        +:+ Specification.dq +:+ ">Document status - Confidential</p>"
        +:+ Py.nl
  | _ => ""
  end.

(** [Formatter.format_copyright]. *)
Definition format_copyright (company : t) : string :=
  if Py.truthy (name company)
  then Py.nl +:+ "<p class=" +:+ Specification.dq +:+ "copyright"
         +:+ Specification.dq +:+ ">" +:+ Py.nl
         +:+ copyright_notice (default "" (name company)) +:+ Py.nl
         +:+ "</p>" +:+ Py.nl
  else "".

End Blocks.

End Company.

(** ** [MessageMap] of [testflows/_core/message.py] *)

Module MessageMap.

(** The fields of the named tuple, in their order. *)
Definition fields : list string :=
  ["NONE"; "TEST"; "RESULT"; "EXCEPTION"; "NOTE"; "DEBUG"; "TRACE";
   "VERSION"; "PROTOCOL"; "INPUT"; "VALUE"; "METRIC"; "TICKET";
   "ARGUMENT"; "TAG"; "ATTRIBUTE"; "REQUIREMENT"; "NODE"; "MAP"; "STOP"].

(** The position of a field in the tuple, the index at which the tuple
    holds it. *)
Fixpoint position_in (l : list string) (field : string) : option Z :=
  match l with
  | [] => None
  | f :: rest =>
      if String.eqb f field then Some 0
      else Z.succ <$> position_in rest field
  end.

Definition position : string → option Z := position_in fields.

End MessageMap.

(** * Properties *)

(** ** Strings *)

Lemma str_app_cons (x : ascii) (a b : string) :
  String x a +:+ b = String x (a +:+ b).
Proof. reflexivity. Qed.

Lemma str_app_nil_l (a : string) : "" +:+ a = a.
Proof. reflexivity. Qed.

Lemma str_app_assoc (a b c : string) : (a +:+ b) +:+ c = a +:+ (b +:+ c).
Proof.
  induction a as [|x a IH]; [done |].
  by rewrite !str_app_cons, IH.
Qed.

Lemma str_app_nil_r (a : string) : a +:+ "" = a.
Proof.
  induction a as [|x a IH]; [done |].
  by rewrite str_app_cons, IH.
Qed.

Lemma startswith_app (p s : string) : Py.startswith p (p +:+ s) = true.
Proof.
  induction p as [|x p IH]; [done |].
  rewrite str_app_cons. cbn. by rewrite Ascii.eqb_refl, IH.
Qed.

Lemma contains_app (sub a b : string) :
  contains sub (a +:+ sub +:+ b) = true.
Proof.
  induction a as [|x a IH].
  - rewrite str_app_nil_l.
    destruct (sub +:+ b) eqn:E; cbn; rewrite <- E, startswith_app; done.
  - rewrite str_app_cons. cbn. rewrite IH. apply orb_true_r.
Qed.

(** ** The tracker *)

Section TrackerFacts.

Import Short Tracker.

Lemma children_of_record_parent msg st :
  children_of (record msg st) (Name.parentname (test_id msg))
  = children_of st (Name.parentname (test_id msg)) ++ [msg].
Proof.
  unfold children_of, record; simpl.
  destruct (tests_by_parent st !! _) as [l|] eqn:E.
  - by rewrite lookup_alter_eq, E.
  - by rewrite lookup_alter_eq, lookup_insert_eq.
Qed.

Lemma lookup_record_other msg st parent_id :
  parent_id ≠ Name.parentname (test_id msg) →
  tests_by_parent (record msg st) !! parent_id
  = tests_by_parent st !! parent_id.
Proof.
  intros Hne. unfold record; simpl.
  rewrite lookup_alter_ne by done.
  destruct (tests_by_parent st !! Name.parentname _); [done |].
  by rewrite lookup_insert_ne.
Qed.

Lemma children_of_record_other msg st parent_id :
  parent_id ≠ Name.parentname (test_id msg) →
  children_of (record msg st) parent_id = children_of st parent_id.
Proof.
  intros Hne. unfold children_of. by rewrite lookup_record_other.
Qed.

Lemma wf_init : wf init.
Proof. intros p l. unfold init; simpl. by rewrite lookup_empty. Qed.

Lemma wf_record msg st : wf st → wf (record msg st).
Proof.
  intros Hwf p l.
  destruct (decide (p = Name.parentname (test_id msg))) as [->|Hne].
  - intros Hl.
    assert (children_of (record msg st) (Name.parentname (test_id msg)) = l)
      as Hc by (unfold children_of; by rewrite Hl).
    rewrite children_of_record_parent in Hc. subst l.
    by destruct (children_of st _).
  - rewrite lookup_record_other by done. apply Hwf.
Qed.

(** In a well-formed state a missing list and an empty list of children
    are the same thing. *)
Lemma wf_no_children st parent_id :
  wf st →
  tests_by_parent st !! parent_id = None ↔ children_of st parent_id = [].
Proof.
  intros Hwf. unfold children_of.
  destruct (tests_by_parent st !! parent_id) as [l|] eqn:E; simpl.
  - split; [done |]. intros ->. by apply Hwf in E.
  - done.
Qed.

End TrackerFacts.

(** ** The And-collapse rule *)

Section AndCollapse.

Import Short Tracker.

Variable color : string → string → list string → string.
Variable cursor_up : string.
Variable dedent : string → string.
Variable textwrap_indent : string → string → string.
Variable SKIP : Z.
Variable show_skipped : bool.
Variable type_attribute : string → bool.

Lemma prev_after_record msg st :
  let siblings := children_of (record msg st) (Name.parentname (test_id msg)) in
  (if bool_decide (1 < length siblings)%nat
   then siblings !! (length siblings - 2)%nat else None)
  = last (children_of st (Name.parentname (test_id msg))).
Proof.
  cbv zeta. rewrite children_of_record_parent.
  destruct (children_of st _) as [|x l] using rev_ind; [done |].
  rewrite last_snoc, !length_app; simpl.
  rewrite bool_decide_eq_true_2 by lia.
  replace (length l + 1 + 1 - 2)%nat with (length l) by lia.
  rewrite <- app_assoc; simpl. by apply list_lookup_middle.
Qed.

Lemma first_child_after_record msg st :
  length (children_of (record msg st) (Name.parentname (test_id msg))) = 1%nat
  ↔ children_of st (Name.parentname (test_id msg)) = [].
Proof.
  rewrite children_of_record_parent, length_app; simpl.
  destruct (children_of st _); simpl; split; (done || lia).
Qed.

Lemma sibling_test_spec msg S st :
  wf st → sibling_test msg S st = true ↔ collapses_on_sibling msg S st.
Proof.
  intros Hwf. pose proof (wf_record msg st Hwf) as Hwf'.
  unfold sibling_test, collapses_on_sibling.
  destruct (last _) as [prev|]; split.
  - intros [B1 B2]%andb_prop.
    apply bool_decide_eq_true_1 in B1, B2.
    exists prev. split_and!; [done | done | by apply wf_no_children].
  - intros (prev' & [= <-] & Hsub & Hnone).
    rewrite !bool_decide_eq_true_2; [done | by apply wf_no_children | done].
  - done.
  - by intros (prev' & ? & _).
Qed.

Lemma parent_test_spec msg S st :
  parent_test msg S st = true ↔ collapses_on_parent msg S st.
Proof.
  unfold parent_test, collapses_on_parent.
  destruct (tests_by_id _ !! _) as [parent|]; split.
  - intros [B1 B2]%andb_prop.
    apply bool_decide_eq_true_1 in B1, B2.
    exists parent. split_and!; [done | done | by apply first_child_after_record].
  - intros (parent' & [= <-] & Hsub & Hfirst).
    rewrite !bool_decide_eq_true_2;
      [done | by apply first_child_after_record | done].
  - done.
  - by intros (parent' & ? & _).
Qed.

Lemma and_keyword_tests msg keyword S st :
  and_keyword msg (Name.parentname (test_id msg)) keyword S (record msg st)
  = if sibling_test msg S st || parent_test msg S st then "And" else keyword.
Proof.
  unfold and_keyword, sibling_test, parent_test.
  pose proof (prev_after_record msg st) as Hprev. cbv zeta in Hprev.
  rewrite Hprev. clear Hprev.
  destruct (last _) as [prev|];
    destruct (tests_by_id _ !! _) as [parent|];
    repeat (destruct (bool_decide _)); done.
Qed.

#[local] Abbreviation format_test :=
  (Short.format_test color dedent textwrap_indent type_attribute).
#[local] Abbreviation test_line := (Short.test_line color dedent textwrap_indent).
#[local] Abbreviation send :=
  (Short.send color cursor_up dedent textwrap_indent SKIP show_skipped
     type_attribute).
#[local] Abbreviation run :=
  (Short.run color cursor_up dedent textwrap_indent SKIP show_skipped
     type_attribute).

Lemma name_not_And S :
  TestSubType.is_step_keyword S = true → TestSubType.name S ≠ "And".
Proof. by destruct S. Qed.

(** The keyword of a recorded step whose subtype is one of the six. *)
Lemma test_keyword_step msg S st :
  get_subtype msg = Some S →
  TestSubType.is_step_keyword S = true →
  test_keyword msg "" (Some TestType.Step) (record msg st)
  = if sibling_test msg S st || parent_test msg S st
    then "And" else TestSubType.name S.
Proof.
  intros Hsub HS. unfold test_keyword. rewrite Hsub.
  destruct S; try done; by rewrite str_app_nil_l, and_keyword_tests.
Qed.

Lemma format_test_step msg S st :
  test_type msg = "Step" →
  get_subtype msg = Some S →
  TestSubType.is_step_keyword S = true →
  format_test msg "" st
  = (record msg st,
     Ok (test_line msg
           (if sibling_test msg S st || parent_test msg S st
            then "And" else TestSubType.name S))).
Proof.
  intros Hty Hsub HS. unfold Short.format_test, get_type.
  rewrite Hty. change (TestType.of_name "Step") with (Some TestType.Step).
  unfold mbind, mret, result_bind, result_ret.
  by rewrite (test_keyword_step msg S).
Qed.

Lemma send_step msg S P st :
  step_under S P msg →
  TestSubType.is_step_keyword S = true →
  suppressed SKIP show_skipped msg = false →
  send msg st
  = (with_last_message msg (record msg st),
     Ok (Some (test_line msg
                 (if sibling_test msg S st || parent_test msg S st
                  then "And" else TestSubType.name S)))).
Proof.
  intros (Hkind & Hty & Hsub & _) HS Hshown. unfold Short.send.
  rewrite Hkind, Hshown.
  change (formatters (Message.name Message.TEST)) with (Some FormatTest).
  unfold call. by rewrite (format_test_step msg S).
Qed.

Lemma sibling_test_follows prev msg P st :
  wf st →
  step_under TestSubType.Given P prev →
  step_under TestSubType.Given P msg →
  children_of (record msg (record prev st)) (test_id prev) = [] →
  sibling_test msg TestSubType.Given
    (with_last_message prev (record prev st)) = true.
Proof.
  intros Hwf (_ & _ & Hsub & HP) (_ & _ & _ & HP') Hnone.
  apply (sibling_test_spec msg TestSubType.Given
           (with_last_message prev (record prev st))).
  { exact (wf_record prev st Hwf). }
  exists prev. split_and!; [|done|exact Hnone].
  rewrite HP', <- HP.
  change (children_of (with_last_message prev (record prev st)))
    with (children_of (record prev st)).
  by rewrite children_of_record_parent, last_snoc.
Qed.

(** C1, as amended.  In [format_test], a step whose subtype [S] is one
    of Given, When, Then, By, But and Finally gets the keyword [And]
    exactly when the sibling recorded just before it under the same
    parent has subtype [S] and no recorded children, or the parent has
    subtype [S] and the step is its first recorded child; otherwise it
    keeps the name of [S].  Of three consecutive Given steps under one
    parent, none of which has children, the second and the third are
    rendered with [And], and the first one with [Given] unless the rule
    itself applies to it. *)
Theorem and_collapse_rule :
  (∀ msg S st,
      wf st →
      test_type msg = "Step" →
      get_subtype msg = Some S →
      TestSubType.is_step_keyword S = true →
      ∃ keyword,
        format_test msg "" st = (record msg st, Ok (test_line msg keyword))
        ∧ (keyword = "And"
           ↔ collapses_on_sibling msg S st ∨ collapses_on_parent msg S st)
        ∧ (keyword ≠ "And" → keyword = TestSubType.name S))
  ∧ (∀ m1 m2 m3 P st,
        wf st →
        Forall (step_under TestSubType.Given P) [m1; m2; m3] →
        Forall (fun m => suppressed SKIP show_skipped m = false) [m1; m2; m3] →
        children_of (recorded [m1; m2] st) (test_id m1) = [] →
        children_of (recorded [m1; m2; m3] st) (test_id m2) = [] →
        ∃ first,
          (run [m1; m2; m3] st).1.2
          = [Some (test_line m1 first); Some (test_line m2 "And");
             Some (test_line m3 "And")]
          ∧ (first = "And"
             ↔ collapses_on_sibling m1 TestSubType.Given st
               ∨ collapses_on_parent m1 TestSubType.Given st)
          ∧ (first ≠ "And" → first = "Given")).
Proof.
  assert (∀ msg S st, wf st → TestSubType.is_step_keyword S = true →
            let keyword := if sibling_test msg S st || parent_test msg S st
                           then "And" else TestSubType.name S in
            (keyword = "And"
             ↔ collapses_on_sibling msg S st ∨ collapses_on_parent msg S st)
            ∧ (keyword ≠ "And" → keyword = TestSubType.name S)) as Hrule.
  { intros msg S st Hwf HS keyword. subst keyword.
    pose proof (sibling_test_spec msg S st Hwf) as Hs.
    pose proof (parent_test_spec msg S st) as Hp.
    pose proof (name_not_And S HS) as Hname.
    destruct (sibling_test msg S st); simpl.
    { split; [|done]. split; [intros _; left; by apply Hs | done]. }
    destruct (parent_test msg S st); simpl.
    { split; [|done]. split; [intros _; right; by apply Hp | done]. }
    split; [|done]. split; [done |].
    intros [H|H]; [apply Hs in H | apply Hp in H]; done. }
  split.
  - intros msg S st Hwf Hty Hsub HS.
    eexists. split; [by apply (format_test_step msg S) |].
    by apply Hrule.
  - intros m1 m2 m3 P st Hwf Hsteps Hshown Hc1 Hc2.
    apply Forall_cons in Hsteps as [H1 Hsteps].
    apply Forall_cons in Hsteps as [H2 Hsteps].
    apply Forall_cons in Hsteps as [H3 _].
    apply Forall_cons in Hshown as [S1 Hshown].
    apply Forall_cons in Hshown as [S2 Hshown].
    apply Forall_cons in Hshown as [S3 _].
    eexists. split; [|by apply (Hrule m1 TestSubType.Given st)].
    unfold Short.run.
    rewrite (send_step m1 TestSubType.Given P) by done.
    rewrite (send_step m2 TestSubType.Given P) by done.
    rewrite (send_step m3 TestSubType.Given P) by done.
    rewrite (sibling_test_follows m1 m2 P st) by done.
    pose proof (sibling_test_follows m2 m3 P
                  (with_last_message m1 (record m1 st))
                  (wf_record m1 st Hwf) H2 H3 Hc2) as ->.
    done.
Qed.

End AndCollapse.

Lemma and_collapse_rule_witness :
  (∃ keyword,
      Short.format_test Sample.color Sample.dedent Sample.textwrap_indent
    Sample.type_attribute
        Sample.given_2 "" (Short.record Sample.given_1 (Short.record Sample.feature_A Short.init))
      = (Short.record Sample.given_2
           (Short.record Sample.given_1 (Short.record Sample.feature_A Short.init)),
         Ok (Short.test_line Sample.color Sample.dedent Sample.textwrap_indent
               Sample.given_2 keyword))
      ∧ (keyword = "And"
         ↔ Tracker.collapses_on_sibling Sample.given_2 TestSubType.Given
             (Short.record Sample.given_1 (Short.record Sample.feature_A Short.init))
           ∨ Tracker.collapses_on_parent Sample.given_2 TestSubType.Given
               (Short.record Sample.given_1 (Short.record Sample.feature_A Short.init)))
      ∧ (keyword ≠ "And" → keyword = "Given"))
  ∧ (∃ first,
        (Sample.run [Sample.given_1; Sample.given_2; Sample.given_3]
           (Short.record Sample.feature_A Short.init)).1.2
        = [Some (Short.test_line Sample.color Sample.dedent
                   Sample.textwrap_indent Sample.given_1 first);
           Some ("  And more setup" +:+ Py.nl);
           Some ("  And even more setup" +:+ Py.nl)]
        ∧ (first = "And"
           ↔ Tracker.collapses_on_sibling Sample.given_1 TestSubType.Given
               (Short.record Sample.feature_A Short.init)
             ∨ Tracker.collapses_on_parent Sample.given_1 TestSubType.Given
                 (Short.record Sample.feature_A Short.init))
        ∧ (first ≠ "And" → first = "Given")).
Proof.
  destruct (and_collapse_rule Sample.color Sample.cursor_up Sample.dedent
              Sample.textwrap_indent Sample.SKIP true Sample.type_attribute) as [rule three].
  split.
  - apply (rule Sample.given_2 TestSubType.Given).
    + do 2 apply wf_record. apply wf_init.
    + reflexivity.
    + reflexivity.
    + reflexivity.
  - apply (three Sample.given_1 Sample.given_2 Sample.given_3 "/A").
    + apply wf_record, wf_init.
    + repeat constructor.
    + repeat constructor.
    + vm_compute. reflexivity.
    + vm_compute. reflexivity.
Defined.

(** C1, the counterexample: three consecutive Given steps without children
    whose parent is itself a Given step are rendered [And], [And], [And]. *)
Lemma and_collapse_given_parent_counterexample :
  Forall (Tracker.step_under TestSubType.Given "/A")
    [Sample.given_1; Sample.given_2; Sample.given_3]
  ∧ Forall (fun m => Short.children_of
                       (Tracker.recorded [Sample.given_1; Sample.given_2; Sample.given_3]
                          (Short.record Sample.given_parent_A Short.init))
                       (test_id m) = [])
      [Sample.given_1; Sample.given_2; Sample.given_3]
  ∧ (Sample.run [Sample.given_1; Sample.given_2; Sample.given_3]
       (Short.record Sample.given_parent_A Short.init)).1.2
    = [Some ("  And setup" +:+ Py.nl);
       Some ("  And more setup" +:+ Py.nl);
       Some ("  And even more setup" +:+ Py.nl)]
  ∧ (Sample.run [Sample.given_1; Sample.given_2; Sample.given_3]
       (Short.record Sample.given_parent_A Short.init)).1.2
    ≠ [Some ("  Given setup" +:+ Py.nl);
       Some ("  And more setup" +:+ Py.nl);
       Some ("  And even more setup" +:+ Py.nl)].
Proof.
  split_and!.
  - repeat constructor.
  - repeat constructor.
  - vm_compute. reflexivity.
  - vm_compute. discriminate.
Qed.

(** ** Lines of results *)

Lemma mul_indent (n : Z) : Py.mul Short.indent n = Lines.levels n.
Proof.
  unfold Lines.levels, Py.mul.
  destruct (Z.le_gt_cases n 0) as [Hn|Hn].
  - replace (Z.to_nat n) with 0%nat by lia.
    replace (Z.to_nat (2 * n)) with 0%nat by lia. done.
  - rewrite Z2Nat.inj_mul by lia.
    change (Z.to_nat 2) with 2%nat.
    induction (Z.to_nat n) as [|k IH]; [done |].
    replace (2 * S k)%nat with (S (S (2 * k))) by lia.
    cbn [Py.repeat]. rewrite IH. reflexivity.
Qed.

Section Results.

Import Short Lines.

Variable color : string → string → list string → string.
Variable cursor_up : string.
Variable dedent : string → string.
Variable textwrap_indent : string → string → string.
Variable SKIP : Z.
Variable show_skipped : bool.
Variable type_attribute : string → bool.

#[local] Abbreviation format_result :=
  (Short.format_result color dedent textwrap_indent).
#[local] Abbreviation run :=
  (Short.run color cursor_up dedent textwrap_indent SKIP show_skipped
     type_attribute).

(** C2, as amended.  The line of a result starts with the indentation of
    its test and the coloured result.  The name of the test follows only
    for the results [Fail], [Error] and [Null] and for those that start
    with [X], and after the name come a comma and the message, for the
    first three when there is a message, or a comma and the reason, for
    the others when there is a reason; the line of any other result, [OK]
    and [Skip] among them, ends right after the result.  The scenario of
    the feature [/A] with two Given steps that ends in the result [OK]
    renders a line [Feature A], a line [Given setup], a line
    [And more setup] and a line [OK]; on a plain terminal the failure of
    the test [/A] with the message [boom] gives the line [Fail A, boom],
    and its expected failure with the reason [known issue] the line
    [XFail A, known issue]. *)
Theorem format_result_line :
  (∀ msg,
      format_result msg
      = levels (depth msg - 1) +:+ color_result color (result_type msg)
          +:+ (if names_test (result_type msg)
               then " " +:+ color_test_name color (Name.basename (result_test msg))
                        +:+ result_details color dedent textwrap_indent msg
               else "")
          +:+ Py.nl)
  ∧ (run [Sample.feature_A; Sample.given_1; Sample.given_2;
          Sample.result_msg "/A" "OK"] init).1.2
    = [Some (color_keyword color "Feature" +:+ " "
               +:+ color_test_name color "A" +:+ Py.nl);
       Some ("  " +:+ color_keyword color "Given" +:+ " "
               +:+ color_test_name color "setup" +:+ Py.nl);
       Some ("  " +:+ color_keyword color "And" +:+ " "
               +:+ color_test_name color "more setup" +:+ Py.nl);
       Some (color_result color "OK" +:+ Py.nl)]
  ∧ Short.format_result Sample.color Sample.dedent Sample.textwrap_indent
      Sample.failed
    = "Fail A, boom" +:+ Py.nl
  ∧ Short.format_result Sample.color Sample.dedent Sample.textwrap_indent
      Sample.expected_failure
    = "XFail A, known issue" +:+ Py.nl.
Proof.
  split_and!.
  - intros msg.
    unfold Short.format_result, names_test, result_details, explanation,
      is_failure.
    rewrite mul_indent.
    destruct (String.eqb (result_type msg) "Fail"
              || String.eqb (result_type msg) "Error"
              || String.eqb (result_type msg) "Null") eqn:Hfail.
    + rewrite orb_true_l.
      destruct (Py.truthy (result_message msg)); by rewrite !str_app_assoc.
    + rewrite orb_false_l.
      destruct (Py.startswith "X" (result_type msg)); cbn [andb].
      * destruct (Py.truthy (result_reason msg)); by rewrite !str_app_assoc.
      * by rewrite !str_app_assoc.
  - vm_compute. reflexivity.
  - vm_compute. reflexivity.
  - vm_compute. reflexivity.
Qed.

End Results.

(** C2, the counterexample: the line of the result [OK] of the test [/A]
    is the result alone; the name of the test is not in it. *)
Lemma format_result_ok_counterexample :
  Short.format_result Sample.color Sample.dedent Sample.textwrap_indent
    (Sample.result_msg "/A" "OK")
  = "OK" +:+ Py.nl
  ∧ Short.color_test_name Sample.color (Name.basename "/A") = "A"
  ∧ contains "A"
      (Short.format_result Sample.color Sample.dedent Sample.textwrap_indent
         (Sample.result_msg "/A" "OK")) = false
  ∧ List.last
      (Sample.run [Sample.feature_A; Sample.given_1; Sample.given_2;
                   Sample.result_msg "/A" "OK"] Short.init).1.2 None
    ≠ Some ("OK A" +:+ Py.nl).
Proof.
  split_and!; try (vm_compute; reflexivity).
  vm_compute. discriminate.
Qed.

(** ** The transform and the tracker *)

Section Transform.

Import Short Tracker.

Variable color : string → string → list string → string.
Variable cursor_up : string.
Variable dedent : string → string.
Variable textwrap_indent : string → string → string.
Variable SKIP : Z.
Variable show_skipped : bool.
Variable type_attribute : string → bool.

#[local] Abbreviation test_line := (Short.test_line color dedent textwrap_indent).
#[local] Abbreviation send :=
  (Short.send color cursor_up dedent textwrap_indent SKIP show_skipped
     type_attribute).
#[local] Abbreviation run :=
  (Short.run color cursor_up dedent textwrap_indent SKIP show_skipped
     type_attribute).

(** What the transform does with a [TEST] message that is not suppressed:
    the message is recorded, and it is rendered unless its type names
    nothing in the class [TestType]. *)
Lemma send_test msg st :
  message_keyword msg = Message.name Message.TEST →
  suppressed SKIP show_skipped msg = false →
  send msg st
  = match get_type type_attribute msg with
    | Ok t =>
        (with_last_message msg (record msg st),
         Ok (Some (test_line msg (test_keyword msg "" t (record msg st)))))
    | Raise e => (record msg st, Raise e)
    end.
Proof.
  intros Hkind Hshown. unfold Short.send.
  rewrite Hkind, Hshown.
  change (formatters (Message.name Message.TEST)) with (Some FormatTest).
  unfold call, Short.format_test.
  by destruct (get_type type_attribute msg).
Qed.

Lemma get_type_member msg t :
  TestType.of_name (test_type msg) = Some t →
  get_type type_attribute msg = Ok (Some t).
Proof. intros Ht. unfold get_type. by rewrite Ht. Qed.

(** Every state that the transform reaches from the initial one is
    well-formed. *)
Lemma wf_send msg st : wf st → wf (send msg st).1.
Proof.
  intros Hwf. unfold Short.send.
  destruct (formatters (message_keyword msg)) as [f|]; [|done].
  destruct (suppressed SKIP show_skipped msg); [done |].
  destruct f; simpl; try done.
  unfold Short.format_test.
  destruct (get_type type_attribute msg); simpl; exact (wf_record msg st Hwf).
Qed.

Lemma wf_run lines st : wf st → wf (run lines st).1.1.
Proof.
  revert st. induction lines as [|line lines IH]; intros st Hwf; [done |].
  simpl. pose proof (wf_send line st Hwf) as Hnext.
  destruct (send line st) as [st1 [out|e]]; [|done].
  specialize (IH st1 Hnext).
  by destruct (run lines st1) as [[??]?].
Qed.

Lemma tests_by_id_record msg st :
  tests_by_id (record msg st) !! test_id msg = Some msg.
Proof. unfold record; simpl. apply lookup_insert_eq. Qed.


(** C4, as amended.  A second [TEST] message with the id of an earlier one
    raises nothing.  It is rendered, it replaces the earlier message in
    the map of tests by id, and the list of children of the parent holds
    both messages. *)
Theorem duplicate_id_overwrites m1 m2 t1 t2 st :
  Forall (fun m => message_keyword m = Message.name Message.TEST) [m1; m2] →
  Forall (fun m => suppressed SKIP show_skipped m = false) [m1; m2] →
  TestType.of_name (test_type m1) = Some t1 →
  TestType.of_name (test_type m2) = Some t2 →
  test_id m1 = test_id m2 →
  ∃ out1 out2 st2,
    run [m1; m2] st = (st2, [Some out1; Some out2], None)
    ∧ tests_by_id st2 !! test_id m1 = Some m2
    ∧ children_of st2 (Name.parentname (test_id m1))
      = children_of st (Name.parentname (test_id m1)) ++ [m1; m2].
Proof.
  intros Hkind Hshown Ht1 Ht2 Hid.
  apply Forall_cons in Hkind as [K1 Hkind].
  apply Forall_cons in Hkind as [K2 _].
  apply Forall_cons in Hshown as [S1 Hshown].
  apply Forall_cons in Hshown as [S2 _].
  unfold Short.run.
  rewrite (send_test m1) by done. rewrite (get_type_member m1 t1 Ht1).
  rewrite (send_test m2) by done. rewrite (get_type_member m2 t2 Ht2).
  do 3 eexists. split_and!; [reflexivity | |].
  - rewrite Hid. apply tests_by_id_record.
  - change (children_of (with_last_message m2 ?s)) with (children_of s).
    rewrite Hid at 1. rewrite children_of_record_parent.
    change (children_of (with_last_message m1 ?s)) with (children_of s).
    rewrite <- Hid. rewrite children_of_record_parent.
    by rewrite <- app_assoc.
Qed.

(** C6, as amended.  After the transform is sent a message, [last_message]
    holds that message if a text was yielded for it.  If the message was
    dropped, because its kind has no formatter or because it is a skipped
    one that is not shown, the state is what it was, [last_message]
    included; it is not reset. *)
Theorem last_message_after_send msg st :
  match (send msg st).2 with
  | Ok (Some _) => last_message (send msg st).1 = Some msg
  | Ok None => (send msg st).1 = st
  | Raise _ => last_message (send msg st).1 = last_message st
  end.
Proof.
  unfold Short.send.
  destruct (formatters (message_keyword msg)) as [f|]; [|done].
  destruct (suppressed SKIP show_skipped msg); [done |].
  destruct f; simpl; try done.
  unfold Short.format_test.
  by destruct (get_type type_attribute msg).
Qed.

(** A log rendered in two parts: the second part goes on from the state
    that the first part left, unless the first part raised. *)
Lemma run_app first second st :
  run (first ++ second) st
  = match run first st with
    | (st1, outs1, None) =>
        let '(st2, outs2, e) := run second st1 in (st2, outs1 ++ outs2, e)
    | (st1, outs1, Some e) => (st1, outs1, Some e)
    end.
Proof.
  revert st. induction first as [|line first IH]; intros st.
  - simpl. by destruct (run second st) as [[??]?].
  - simpl. destruct (send line st) as [st1 [out|e]]; [|done].
    rewrite IH.
    destruct (run first st1) as [[st2 outs1] [e|]]; [done |].
    by destruct (run second st2) as [[??]?].
Qed.

End Transform.



Lemma duplicate_id_overwrites_witness :
  ∃ out1 out2 st2,
    Sample.run [Sample.feature_A; Sample.given_parent_A] Short.init
    = (st2, [Some out1; Some out2], None)
    ∧ Short.tests_by_id st2 !! "/A" = Some Sample.given_parent_A
    ∧ Short.children_of st2 "/"
      = Short.children_of Short.init "/"
          ++ [Sample.feature_A; Sample.given_parent_A].
Proof.
  apply (duplicate_id_overwrites Sample.color Sample.cursor_up Sample.dedent
           Sample.textwrap_indent Sample.SKIP true Sample.type_attribute
           Sample.feature_A Sample.given_parent_A
           TestType.Suite TestType.Step Short.init);
    try reflexivity; repeat constructor.
Defined.

(** C4, the counterexample: two [TEST] messages with the id [/A]; the
    second one is rendered and takes the place of the first one. *)
Lemma duplicate_id_counterexample :
  test_id Sample.feature_A = test_id Sample.given_parent_A
  ∧ (Sample.run [Sample.feature_A; Sample.given_parent_A] Short.init).2 = None
  ∧ (Sample.run [Sample.feature_A; Sample.given_parent_A] Short.init).1.2
    = [Some ("Feature A" +:+ Py.nl); Some ("Given A" +:+ Py.nl)]
  ∧ Short.tests_by_id
      (Sample.run [Sample.feature_A; Sample.given_parent_A] Short.init).1.1
      !! "/A"
    = Some Sample.given_parent_A.
Proof. split_and!; vm_compute; reflexivity. Qed.

(** C6, the counterexample: a note, which has no formatter, follows a
    rendered test; nothing is yielded for it and [last_message] still
    holds the test. *)
Lemma last_message_counterexample :
  (Sample.send (Sample.note_msg "/A")
     (Sample.send Sample.feature_A Short.init).1).2 = Ok None
  ∧ Short.last_message
      (Sample.send (Sample.note_msg "/A")
         (Sample.send Sample.feature_A Short.init).1).1
    = Some Sample.feature_A
  ∧ Some Sample.feature_A ≠ None.
Proof. split_and!; [vm_compute; reflexivity | vm_compute; reflexivity | done]. Qed.

(** C7, the counterexample: the log of the step [/A/2] rendered by a new
    generator, first in a fresh process and then after a generator that
    rendered the log of the step [/A/1]. *)
Lemma two_runs_counterexample :
  Short.yielded (Sample.render [Sample.given_2] Short.init)
  = [Some ("  Given more setup" +:+ Py.nl)]
  ∧ Short.yielded (Sample.render [Sample.given_2]
               (Short.left_state (Sample.render [Sample.given_1] Short.init)))
    = [Some ("  And more setup" +:+ Py.nl)]
  ∧ Short.yielded (Sample.render [Sample.given_2] Short.init)
    ≠ Short.yielded (Sample.render [Sample.given_2]
                 (Short.left_state (Sample.render [Sample.given_1] Short.init))).
Proof.
  split_and!; [vm_compute; reflexivity | vm_compute; reflexivity |].
  vm_compute. discriminate.
Qed.

(** ** Attributes and indentation *)

Section Attributes.

Import Short Lines.

Variable color : string → string → list string → string.
Variable cursor_up : string.
Variable dedent : string → string.
Variable textwrap_indent : string → string → string.
Variable SKIP : Z.
Variable show_skipped : bool.
Variable type_attribute : string → bool.

#[local] Abbreviation format_attribute := (Short.format_attribute color).
#[local] Abbreviation test_line := (Short.test_line color dedent textwrap_indent).
#[local] Abbreviation format_result :=
  (Short.format_result color dedent textwrap_indent).
#[local] Abbreviation send :=
  (Short.send color cursor_up dedent textwrap_indent SKIP show_skipped
     type_attribute).
#[local] Abbreviation run :=
  (Short.run color cursor_up dedent textwrap_indent SKIP show_skipped
     type_attribute).

(** The text of an attribute: the header when it is due, then the name
    and the value. *)
Lemma format_attribute_text msg st :
  format_attribute msg st
  = (if header_due st then attribute_header color msg +:+ Py.nl else "")
      +:+ attribute_pair color msg.
Proof.
  unfold Short.format_attribute, header_due, attribute_header, attribute_pair.
  rewrite mul_indent.
  destruct (last_message st) as [last|]; [destruct (negb _) |];
    cbn [app Py.join]; rewrite !str_app_assoc; reflexivity.
Qed.

Lemma send_attribute msg st :
  message_keyword msg = Message.name Message.ATTRIBUTE →
  suppressed SKIP show_skipped msg = false →
  send msg st = (with_last_message msg st, Ok (Some (format_attribute msg st))).
Proof.
  intros Hkind Hshown. unfold Short.send. by rewrite Hkind, Hshown.
Qed.

(** C5, as amended.  The text of an attribute starts with the header
    [Attributes] exactly when some message was rendered before and the
    message rendered last is not an attribute; an attribute that is the
    first message to be rendered gets no header.  So two attributes in a
    row that follow a rendered message of another kind make one header
    and two pairs of name and value, and an attribute that comes later,
    after a rendered message of another kind, starts with a header again. *)
Theorem attributes_header :
  (∀ msg st,
      format_attribute msg st
      = (if header_due st then attribute_header color msg +:+ Py.nl else "")
          +:+ attribute_pair color msg)
  ∧ (∀ a1 a2 last st,
        last_message st = Some last →
        message_keyword last ≠ Message.name Message.ATTRIBUTE →
        Forall (fun m => message_keyword m = Message.name Message.ATTRIBUTE)
          [a1; a2] →
        Forall (fun m => suppressed SKIP show_skipped m = false) [a1; a2] →
        (run [a1; a2] st).1.2
        = [Some (attribute_header color a1 +:+ Py.nl +:+ attribute_pair color a1);
           Some (attribute_pair color a2)]).
Proof.
  split; [apply format_attribute_text |].
  intros a1 a2 last st Hlast Hother Hkind Hshown.
  apply Forall_cons in Hkind as [K1 Hkind].
  apply Forall_cons in Hkind as [K2 _].
  apply Forall_cons in Hshown as [S1 Hshown].
  apply Forall_cons in Hshown as [S2 _].
  unfold Short.run.
  rewrite (send_attribute a1), (send_attribute a2) by done.
  rewrite !format_attribute_text.
  unfold header_due at 1. rewrite Hlast.
  apply String.eqb_neq in Hother. rewrite Hother.
  unfold header_due; simpl. rewrite K1; simpl.
  by rewrite str_app_assoc.
Qed.

(** C10, as amended.  The prompt of an input is indented by two spaces
    for every separator of its test id.  The line of a test and the line
    of a result are indented by two spaces for every separator but one,
    and so is the header of attributes, which adds two spaces of its own.
    So for a test id with a separator in it the prompt stands one level
    deeper than the line of the test. *)
Theorem indentation_by_kind msg keyword st :
  0 < depth msg →
  format_input color cursor_up msg keyword
  = levels (depth msg)
      +:+ color (raised_hand +:+ message msg) "yellow" ["bold"]
      +:+ cursor_up +:+ Py.nl
  ∧ (∃ rest,
        test_line msg keyword
        = levels (depth msg - 1) +:+ color_keyword color keyword +:+ rest)
  ∧ (∃ rest,
        format_result msg
        = levels (depth msg - 1) +:+ color_result color (result_type msg)
            +:+ rest)
  ∧ (∃ rest,
        format_attribute msg st
        = (if header_due st
           then levels (depth msg - 1) +:+ "  "
                  +:+ color_secondary_keyword color "Attributes"
           else "") +:+ rest)
  ∧ levels (depth msg) = "  " +:+ levels (depth msg - 1).
Proof.
  intros Hdepth. split_and!.
  - unfold Short.format_input. by rewrite mul_indent.
  - unfold Short.test_line. rewrite mul_indent.
    destruct (Py.truthy (test_description msg));
      rewrite ?str_app_assoc; eexists; reflexivity.
  - unfold Short.format_result. rewrite mul_indent.
    repeat match goal with
           | |- context [if ?b then _ else _] => destruct b
           end; rewrite ?str_app_assoc; eexists; reflexivity.
  - rewrite format_attribute_text. unfold attribute_header.
    destruct (header_due st).
    + exists (Py.nl +:+ attribute_pair color msg). by rewrite !str_app_assoc.
    + by exists (attribute_pair color msg).
  - unfold levels, Py.mul.
    replace (Z.to_nat (2 * depth msg))
      with (S (S (Z.to_nat (2 * (depth msg - 1))))) by lia.
    reflexivity.
Qed.

End Attributes.

Lemma attributes_header_witness :
  (Sample.run [Sample.attribute_1; Sample.attribute_2]
     (Sample.send Sample.feature_A Short.init).1).1.2
  = [Some ("  Attributes" +:+ Py.nl +:+ "    owner" +:+ Py.nl
             +:+ "      me" +:+ Py.nl);
     Some ("    area" +:+ Py.nl +:+ "      core" +:+ Py.nl)].
Proof.
  apply (proj2 (attributes_header Sample.color Sample.cursor_up Sample.dedent
                  Sample.textwrap_indent Sample.SKIP true Sample.type_attribute)
           Sample.attribute_1 Sample.attribute_2 Sample.feature_A).
  - reflexivity.
  - discriminate.
  - repeat constructor.
  - repeat constructor.
Defined.

(** C5, the counterexample: an attribute is the first message that the
    transform is sent; no header is written above its name and value. *)
Lemma first_attribute_counterexample :
  Short.last_message Short.init = None
  ∧ (Sample.send Sample.attribute_1 Short.init).2
    = Ok (Some ("    owner" +:+ Py.nl +:+ "      me" +:+ Py.nl))
  ∧ contains "Attributes"
      (Short.format_attribute Sample.color Sample.attribute_1 Short.init)
    = false.
Proof. split_and!; vm_compute; reflexivity. Qed.

Lemma indentation_by_kind_witness :
  Short.format_input Sample.color Sample.cursor_up Sample.given_1 ""
  = Lines.levels 2
      +:+ Sample.color (Short.raised_hand +:+ "") "yellow" ["bold"]
      +:+ Sample.cursor_up +:+ Py.nl
  ∧ (∃ rest,
        Short.test_line Sample.color Sample.dedent Sample.textwrap_indent
          Sample.given_1 "Given"
        = Lines.levels 1 +:+ Short.color_keyword Sample.color "Given" +:+ rest)
  ∧ (∃ rest,
        Short.format_result Sample.color Sample.dedent Sample.textwrap_indent
          Sample.given_1
        = Lines.levels 1 +:+ Short.color_result Sample.color "" +:+ rest)
  ∧ (∃ rest,
        Short.format_attribute Sample.color Sample.given_1 Short.init
        = "" +:+ rest)
  ∧ Lines.levels 2 = "  " +:+ Lines.levels 1.
Proof.
  apply (indentation_by_kind Sample.color Sample.cursor_up Sample.dedent
           Sample.textwrap_indent Sample.given_1 "Given" Short.init).
  reflexivity.
Defined.

(** C10, the counterexample: the name and the value of an attribute of a
    test five separators deep stand at four and six spaces, not under the
    eight spaces of the lines of that test; and for a test id without a
    separator the prompt of an input is not deeper than the line of the
    test. *)
Lemma indentation_counterexample :
  Short.depth Sample.deep_attribute = 5
  ∧ Short.format_attribute Sample.color Sample.deep_attribute
      (Short.with_last_message Sample.attribute_1 Short.init)
    = "    owner" +:+ Py.nl +:+ "      me" +:+ Py.nl
  ∧ Py.startswith (Lines.levels (Short.depth Sample.deep_attribute - 1))
      (Short.format_attribute Sample.color Sample.deep_attribute
         (Short.with_last_message Sample.attribute_1 Short.init))
    = false
  ∧ Short.format_input Sample.color Sample.cursor_up Sample.flat_input ""
    = Short.raised_hand +:+ "ready?" +:+ Py.nl
  ∧ Short.test_line Sample.color Sample.dedent Sample.textwrap_indent
      Sample.flat_test "Test"
    = "Test A" +:+ Py.nl.
Proof. split_and!; vm_compute; reflexivity. Qed.

(** ** Generators of one process *)

Section Generators.

Import Short Tracker Lines.

Variable color : string → string → list string → string.
Variable cursor_up : string.
Variable dedent : string → string.
Variable textwrap_indent : string → string → string.
Variable SKIP : Z.
Variable show_skipped : bool.
Variable type_attribute : string → bool.

#[local] Abbreviation test_line := (Short.test_line color dedent textwrap_indent).
#[local] Abbreviation run :=
  (Short.run color cursor_up dedent textwrap_indent SKIP show_skipped
     type_attribute).
#[local] Abbreviation feed :=
  (Short.feed color cursor_up dedent textwrap_indent SKIP show_skipped
     type_attribute).
#[local] Abbreviation render :=
  (Short.render color cursor_up dedent textwrap_indent SKIP show_skipped
     type_attribute).

(** A generator that stands at its [yield] and is sent the lines of a log
    yields what [run] gives, and is finished if a formatter raised. *)
Lemma feed_run lines st :
  feed Suspended lines st
  = mkRendering
      (match (run lines st).2 with Some _ => Finished | None => Suspended end)
      (run lines st).1.1 (run lines st).1.2 (run lines st).2.
Proof.
  revert st. induction lines as [|line lines IH]; intros st; [done |].
  cbn [Short.feed Short.run Short.generator_send].
  destruct (Short.send _ _ _ _ _ _ _ line st) as [st1 [out|e]]; [|done].
  rewrite IH. by destruct (run lines st1) as [[??]?].
Qed.

Lemma render_run lines st :
  render lines st
  = mkRendering
      (match (run lines st).2 with Some _ => Finished | None => Suspended end)
      (run lines st).1.1 (run lines st).1.2 (run lines st).2.
Proof. unfold Short.render, transform. cbn [generator_send]. apply feed_run. Qed.

(** The state after a log whose last line is a step. *)
Lemma run_snoc_step first m S P st :
  (run first st).2 = None →
  step_under S P m →
  TestSubType.is_step_keyword S = true →
  suppressed SKIP show_skipped m = false →
  (run (first ++ [m]) st).1.1
  = with_last_message m (record m (run first st).1.1).
Proof.
  intros Hquiet Hm HS Hshown.
  rewrite (run_app color cursor_up dedent textwrap_indent SKIP show_skipped
             type_attribute first [m] st).
  destruct (run first st) as [[st1 outs1] e1]. cbn [fst snd] in *. subst e1.
  cbn [Short.run].
  by rewrite (send_step color cursor_up dedent textwrap_indent SKIP show_skipped
                type_attribute m S P) by done.
Qed.

(** C7, as amended.  The maps of the tracker and [last_message] belong to
    the module, and the frame of a generator holds none of them: every
    generator that [transform()] makes works on the state that the ones
    before it left.  What a new generator yields for a log, after a
    generator that rendered another log without raising, is what that
    generator would have yielded had it been sent the second log too.  So
    the And-collapse goes across generators: a step whose subtype is one
    of Given, When, Then, By, But and Finally, rendered first by a new
    generator, gets the keyword [And] when the last message that the
    generator before it rendered is a step of the same subtype under the
    same parent without children.  And so does the header of attributes:
    an attribute rendered first by a new generator gets the header when
    the message that an earlier generator rendered last is not an
    attribute. *)
Theorem generators_share_state :
  (∀ first second st,
      raised (render first st) = None →
      yielded (render (first ++ second) st)
      = yielded (render first st)
          ++ yielded (render second (left_state (render first st)))
      ∧ left_state (render (first ++ second) st)
        = left_state (render second (left_state (render first st)))
      ∧ raised (render (first ++ second) st)
        = raised (render second (left_state (render first st))))
  ∧ (∀ first m1 m2 S P st,
        wf st →
        TestSubType.is_step_keyword S = true →
        step_under S P m1 →
        step_under S P m2 →
        suppressed SKIP show_skipped m1 = false →
        suppressed SKIP show_skipped m2 = false →
        raised (render first st) = None →
        children_of (left_state (render (first ++ [m1]) st)) (test_id m1) = [] →
        yielded (render [m2] (left_state (render (first ++ [m1]) st)))
        = [Some (test_line m2 "And")])
  ∧ (∀ first a last st,
        message_keyword a = Message.name Message.ATTRIBUTE →
        suppressed SKIP show_skipped a = false →
        last_message (left_state (render first st)) = Some last →
        message_keyword last ≠ Message.name Message.ATTRIBUTE →
        yielded (render [a] (left_state (render first st)))
        = [Some (attribute_header color a +:+ Py.nl +:+ attribute_pair color a)]).
Proof.
  split_and!.
  - intros first second st. rewrite !render_run. cbn [raised yielded left_state].
    rewrite (run_app color cursor_up dedent textwrap_indent SKIP show_skipped
               type_attribute first second st).
    destruct (run first st) as [[st1 outs1] e1]. cbn [fst snd].
    intros ->. by destruct (run second st1) as [[??]?].
  - intros first m1 m2 S P st Hwf HS Hm1 Hm2 S1 S2 Hquiet Hleaf.
    rewrite !render_run in *. cbn [raised yielded left_state] in *.
    rewrite (run_snoc_step first m1 S P st) in * by done.
    pose proof (wf_run color cursor_up dedent textwrap_indent SKIP show_skipped
                  type_attribute first st Hwf) as Hwf1.
    set (st1 := (run first st).1.1) in *.
    change (children_of (with_last_message m1 (record m1 st1)))
      with (children_of (record m1 st1)) in Hleaf.
    pose proof Hm1 as (_ & _ & Hsub1 & HP1).
    pose proof Hm2 as (_ & _ & _ & HP2).
    assert (test_id m1 ≠ P) as Hne.
    { intros Heq. rewrite Heq, <- HP1, children_of_record_parent in Hleaf.
      by destruct (children_of st1 _). }
    cbn [Short.run].
    rewrite (send_step color cursor_up dedent textwrap_indent SKIP show_skipped
               type_attribute m2 S P) by done.
    assert (sibling_test m2 S (with_last_message m1 (record m1 st1)) = true)
      as ->; [|done].
    apply sibling_test_spec; [exact (wf_record m1 st1 Hwf1) |].
    exists m1. rewrite HP2. split_and!; [|done|].
    + change (children_of (with_last_message m1 (record m1 st1)))
        with (children_of (record m1 st1)).
      rewrite <- HP1, children_of_record_parent. apply last_snoc.
    + rewrite children_of_record_other by by rewrite HP2.
      exact Hleaf.
  - intros first a last st Ka Sa Hlast Hother.
    rewrite (render_run [a]). cbn [yielded Short.run].
    rewrite (send_attribute color cursor_up dedent textwrap_indent SKIP
               show_skipped type_attribute a) by done.
    rewrite format_attribute_text.
    assert (header_due (left_state (render first st)) = true) as ->.
    { unfold header_due. rewrite Hlast.
      apply String.eqb_neq in Hother. by rewrite Hother. }
    by rewrite str_app_assoc.
Qed.

End Generators.

Lemma generators_share_state_witness :
  Short.yielded (Sample.render [Sample.given_2]
             (Short.left_state
                (Sample.render [Sample.feature_A; Sample.given_1] Short.init)))
  = [Some ("  And more setup" +:+ Py.nl)]
  ∧ Short.yielded (Sample.render [Sample.attribute_1]
               (Short.left_state (Sample.render [Sample.feature_A] Short.init)))
    = [Some ("  Attributes" +:+ Py.nl +:+ "    owner" +:+ Py.nl
               +:+ "      me" +:+ Py.nl)]
  ∧ Short.yielded (Sample.render ([Sample.feature_A] ++ [Sample.given_1]) Short.init)
    = Short.yielded (Sample.render [Sample.feature_A] Short.init)
        ++ Short.yielded (Sample.render [Sample.given_1]
                      (Short.left_state (Sample.render [Sample.feature_A] Short.init))).
Proof.
  destruct (generators_share_state Sample.color Sample.cursor_up Sample.dedent
              Sample.textwrap_indent Sample.SKIP true Sample.type_attribute)
    as (continues & steps & attrs).
  split_and!.
  - apply (steps [Sample.feature_A] Sample.given_1 Sample.given_2
             TestSubType.Given "/A" Short.init);
      try reflexivity; try (repeat constructor).
    apply wf_init.
  - apply (attrs [Sample.feature_A] Sample.attribute_1 Sample.feature_A
             Short.init); try reflexivity.
    discriminate.
  - apply (continues [Sample.feature_A] [Sample.given_1] Short.init).
    reflexivity.
Defined.

(** ** The specification report *)

Lemma rstrip_by_snoc (p : ascii → bool) (a : string) (c : ascii) :
  Py.rstrip_by p (a +:+ String c "")
  = if p c then Py.rstrip_by p a else a +:+ String c "".
Proof.
  induction a as [|x a IH].
  - rewrite !str_app_nil_l. cbn. by destruct (p c).
  - rewrite !str_app_cons. cbn [Py.rstrip_by]. rewrite IH.
    destruct (p c); [done |].
    destruct a; [by rewrite !str_app_nil_l | by rewrite !str_app_cons].
Qed.

Section ReportSections.

Import Specification Report.

Variable upper : string → string.
Variable dedent : string → string.
Variable textwrap_indent : string → string → string.

#[local] Abbreviation heading_line := (Specification.heading_line upper).
#[local] Abbreviation toc_entry := (Specification.toc_entry upper).
#[local] Abbreviation heading_text := (Report.heading_text upper).
#[local] Abbreviation section_frame :=
  (Specification.section_frame upper dedent textwrap_indent).

(** The heading that [format_tests] cuts out of the line it has just
    appended is the text of that line without the marks and the line
    feed. *)
Lemma heading_of_heading_line number test :
  heading_of (heading_line number test) = heading_text number test.
Proof.
  unfold heading_of, Specification.heading_line, Report.heading_text,
    newline, Py.nl.
  change (Py.lstrip_by is_hash_or_space ("### 2." +:+ ?x)) with ("2." +:+ x).
  unfold Py.strip, Py.rstrip.
  replace ("2." +:+ number +:+ " " +:+ upper (keyword test) +:+ " **"
             +:+ name test +:+ "**" +:+ String "010" "")
    with (("2." +:+ number +:+ " " +:+ upper (keyword test) +:+ " **"
             +:+ name test +:+ "*" +:+ String "*" "") +:+ String "010" "")
    by (by rewrite !str_app_assoc).
  rewrite rstrip_by_snoc.
  change (Py.is_space "010") with true. cbv iota.
  replace ("2." +:+ number +:+ " " +:+ upper (keyword test) +:+ " **"
             +:+ name test +:+ "*" +:+ String "*" "")
    with (("2." +:+ number +:+ " " +:+ upper (keyword test) +:+ " **"
             +:+ name test +:+ "*") +:+ String "*" "")
    by (by rewrite !str_app_assoc).
  rewrite rstrip_by_snoc.
  change (Py.is_space "*") with false. cbv iota.
  by rewrite !str_app_assoc.
Qed.

(** The lines that open a section start with its heading line, and the
    entry of the section in the table of contents is made from the
    heading cut out of that line. *)
Lemma section_frame_shape test s entry :
  section_frame test = Ok (s, entry) →
  ∃ number rest,
    section_id (id test) = Ok number
    ∧ s = heading_line number test :: rest
    ∧ entry = toc_entry number test (heading_text number test).
Proof.
  unfold Specification.section_frame.
  destruct (section_id (id test)) as [number|]; [|done].
  cbn [mbind result_bind mret result_ret List.last].
  intros [= <- <-]. exists number.
  rewrite heading_of_heading_line.
  eexists. split_and!; [done | | done].
  reflexivity.
Qed.

End ReportSections.

(** ** The slug of a heading *)

Section Slug.

Import Specification Report.

Lemma re_sub_strips (in_run : bool) (s : string) :
  re_sub_runs not_anchor_char "" in_run s = keep s.
Proof.
  revert in_run. induction s as [|c s IH]; intros in_run; [done |].
  cbn [re_sub_runs keep].
  assert (not_anchor_char c = negb (kept c)) as ->.
  { unfold not_anchor_char, kept, is_alphanumeric.
    by destruct (Py.is_lower c), (Py.is_upper c), (Py.is_digit c),
         (Ascii.eqb c "-"), (Ascii.eqb c "_"), (Py.is_space c). }
  destruct (kept c); cbn [negb].
  - by rewrite IH.
  - rewrite IH. by destruct in_run.
Qed.

Lemma hyphenate_space_cons c d s :
  Py.is_space c = true →
  hyphenate (String c (String d s))
  = if Py.is_space d then hyphenate (String d s)
    else String "-" (hyphenate (String d s)).
Proof.
  intros Hc.
  change (hyphenate (String c (String d s)))
    with (if Py.is_space c
          then (if Py.is_space d then hyphenate (String d s)
                else String "-" (hyphenate (String d s)))
          else String c (hyphenate (String d s))).
  by rewrite Hc.
Qed.

Lemma hyphenate_other c s :
  Py.is_space c = false → hyphenate (String c s) = String c (hyphenate s).
Proof. intros Hc. cbn [hyphenate]. by rewrite Hc. Qed.

Lemma hyphenate_space c s :
  Py.is_space c = true → ∃ t, hyphenate (String c s) = String "-" t.
Proof.
  revert c. induction s as [|d s IH]; intros c Hc.
  - cbn. rewrite Hc. by eexists.
  - rewrite hyphenate_space_cons by done.
    destruct (Py.is_space d) eqn:Hd; [by apply IH | by eexists].
Qed.

(** The substitution of the runs of white space, from the start of a
    string and from inside a run. *)
Lemma re_sub_hyphenates (s : string) :
  re_sub_runs Py.is_space "-" false s = hyphenate s
  ∧ re_sub_runs Py.is_space "-" true s
    = match s with
      | EmptyString => EmptyString
      | String c _ =>
          if Py.is_space c then after_hyphen (hyphenate s) else hyphenate s
      end.
Proof.
  induction s as [|c s [IHout IHin]]; [done |].
  cbn [re_sub_runs].
  destruct (Py.is_space c) eqn:Hc.
  - rewrite IHin, str_app_nil_l.
    destruct s as [|d s].
    + cbn. by rewrite Hc.
    + rewrite (hyphenate_space_cons c d s Hc).
      destruct (Py.is_space d) eqn:Hd; [|done].
      destruct (hyphenate_space d s Hd) as [t Ht].
      by rewrite Ht.
  - rewrite IHout. by rewrite hyphenate_other.
Qed.

Lemma anchor_slug (heading : string) : anchor heading = slug heading.
Proof.
  unfold anchor, slug, re_sub.
  rewrite re_sub_strips. apply re_sub_hyphenates.
Qed.

End Slug.

(** ** Tables of contents and section numbers *)

Lemma digit_not_space c : Py.is_digit c = true → Py.is_int_space c = false.
Proof. destruct c as [[] [] [] [] [] [] [] []]; done. Qed.

Lemma digit_not_sep c : Py.is_digit c = true → Ascii.eqb c Name.sep = false.
Proof. destruct c as [[] [] [] [] [] [] [] []]; done. Qed.

Lemma rstrip_by_none (p : ascii → bool) (s : string) :
  (∀ c, In c (list_ascii_of_string s) → p c = false) →
  Py.rstrip_by p s = s.
Proof.
  induction s as [|c s IH]; intros Hall; [done |].
  cbn [Py.rstrip_by]. rewrite IH by (intros d Hd; apply Hall; by right).
  destruct s; [|done].
  by rewrite (Hall c) by by left.
Qed.

Lemma all_digits_In s c :
  Report.all_digits s = true → In c (list_ascii_of_string s) →
  Py.is_digit c = true.
Proof.
  induction s as [|d s IH]; [done |].
  cbn. intros [Hd Hs]%andb_prop [<-|Hin]; [done | by apply IH].
Qed.

Lemma digits_all s acc :
  Report.all_digits s = true →
  Py.digits s acc true
  = Some (fold_left (fun n c => 10 * n + Py.digit_val c)
            (list_ascii_of_string s) acc).
Proof.
  revert acc. induction s as [|c s IH]; intros acc; [done |].
  cbn. intros [Hc Hs]%andb_prop. rewrite Hc. by apply IH.
Qed.

(** [int] reads a decimal numeral as the number it writes. *)
Lemma int_numeral p :
  Report.is_numeral p = true → Py.int p = Ok (Report.numeral_value p).
Proof.
  destruct p as [|c p]; [done |].
  cbn [Report.is_numeral]. intros Hall.
  pose proof Hall as [Hc Hp]%andb_prop.
  unfold Py.int.
  rewrite rstrip_by_none
    by (intros d Hd; apply digit_not_space; by apply (all_digits_In (String c p))).
  cbn [Py.lstrip_by].
  rewrite (digit_not_space c Hc).
  assert (Py.digits (String c p) 0 false = Some (Report.numeral_value (String c p)))
    as Hdigits.
  { cbn [Py.digits]. rewrite Hc. by apply digits_all. }
  destruct c as [[] [] [] [] [] [] [] []]; try discriminate Hc;
    by rewrite Hdigits.
Qed.

Lemma count_nonneg c s : (0 <= Py.count c s)%Z.
Proof.
  induction s as [|d s IH]; cbn; [lia | destruct (Ascii.eqb d c); lia].
Qed.

Lemma split_segment c x y :
  Py.count c x = 0 → Py.split c (x +:+ String c y) = x :: Py.split c y.
Proof.
  induction x as [|d x IH].
  - intros _. rewrite str_app_nil_l. cbn. by rewrite Ascii.eqb_refl.
  - rewrite str_app_cons. cbn [Py.count Py.split].
    destruct (Ascii.eqb d c) eqn:E.
    + pose proof (count_nonneg c x). lia.
    + intros Hcount. rewrite IH by lia. done.
Qed.

Lemma split_last_segment c x :
  Py.count c x = 0 → Py.split c x = [x].
Proof.
  induction x as [|d x IH]; [done |].
  cbn [Py.count Py.split].
  destruct (Ascii.eqb d c) eqn:E.
  - pose proof (count_nonneg c x). lia.
  - intros Hcount. rewrite IH by lia. done.
Qed.

Lemma split_path segments :
  Forall (fun p => Py.count Name.sep p = 0) segments →
  ∀ x, Py.count Name.sep x = 0 →
       Py.split Name.sep (x +:+ Report.path_of segments) = x :: segments.
Proof.
  induction 1 as [|p rest Hp Hrest IH]; intros x Hx.
  - cbn [Report.path_of]. rewrite str_app_nil_r. by apply split_last_segment.
  - cbn [Report.path_of]. rewrite split_segment by done. by rewrite IH.
Qed.

Lemma numeral_no_sep p :
  Report.is_numeral p = true → Py.count Name.sep p = 0.
Proof.
  intros Hp.
  assert (Report.all_digits p = true) as Hall by by destruct p.
  clear Hp. induction p as [|c p IH]; [done |].
  cbn in Hall. apply andb_prop in Hall as [Hc Hall].
  cbn [Py.count]. rewrite (digit_not_sep c Hc). by rewrite IH.
Qed.

Lemma section_numbers_numerals segments i :
  Forall (fun p => Report.is_numeral p = true) segments →
  i ≠ 0%nat →
  Specification.section_numbers i segments
  = Ok (List.map (fun p => Py.str (Report.numeral_value p + 1)) segments).
Proof.
  intros Hall. revert i. induction Hall as [|p rest Hp Hrest IH]; intros i Hi.
  - done.
  - cbn [Specification.section_numbers List.map].
    rewrite bool_decide_eq_false_2 by done.
    rewrite int_numeral by done.
    cbn [mbind result_bind mret result_ret].
    by rewrite IH.
Qed.

Section ReportTheorems.

Import Specification Report.

Variable upper : string → string.
Variable dedent : string → string.
Variable textwrap_indent : string → string → string.

#[local] Abbreviation heading_text := (Report.heading_text upper).
#[local] Abbreviation section_frame :=
  (Specification.section_frame upper dedent textwrap_indent).



End ReportTheorems.



(** * Further properties of the short format *)

Section Keywords.

Import Short Tracker.

Variable color : string → string → list string → string.
Variable dedent : string → string.
Variable textwrap_indent : string → string → string.
Variable type_attribute : string → bool.

#[local] Abbreviation format_test :=
  (Short.format_test color dedent textwrap_indent type_attribute).
#[local] Abbreviation test_line := (Short.test_line color dedent textwrap_indent).

Lemma parent_test_later_child msg S st prev :
  last (children_of st (Name.parentname (test_id msg))) = Some prev →
  parent_test msg S st = false.
Proof.
  intros Hprev. unfold parent_test.
  destruct (tests_by_id _ !! _) as [parent|]; [|done].
  rewrite (bool_decide_eq_false_2 (length _ = 1%nat)); [apply andb_false_r |].
  rewrite first_child_after_record. intros Hnone.
  by rewrite Hnone in Hprev.
Qed.

(** X1.  A step whose subtype is one of Given, When, Then, By, But and
    Finally keeps the name of its subtype as keyword when the sibling
    recorded just before it has another subtype, or has children of its
    own: the chain of [And] ends where the subtype changes and after a
    step that was elaborated. *)
Theorem keyword_kept_after_sibling msg S prev st :
  test_type msg = "Step" →
  get_subtype msg = Some S →
  TestSubType.is_step_keyword S = true →
  last (children_of st (Name.parentname (test_id msg))) = Some prev →
  get_subtype prev ≠ Some S
  ∨ children_of (record msg st) (test_id prev) ≠ [] →
  format_test msg "" st
  = (record msg st, Ok (test_line msg (TestSubType.name S))).
Proof.
  intros Hty Hsub HS Hprev Hother.
  rewrite (format_test_step color dedent textwrap_indent type_attribute msg S) by done.
  rewrite (parent_test_later_child msg S st prev Hprev), orb_false_r.
  assert (sibling_test msg S st = false) as ->; [|done].
  unfold sibling_test. rewrite Hprev.
  destruct Hother as [Hother|Hother].
  - by rewrite (bool_decide_eq_false_2 (get_subtype prev = Some S)).
  - rewrite (bool_decide_eq_false_2 (_ !! _ = None)); [apply andb_false_r |].
    intros Hnone. apply Hother. unfold children_of. by rewrite Hnone.
Qed.

(** X2.  The first step that is recorded under a parent keeps the name of
    its subtype as keyword unless the parent is recorded as a step of the
    same subtype. *)
Theorem first_step_keeps_keyword msg S st :
  test_type msg = "Step" →
  get_subtype msg = Some S →
  TestSubType.is_step_keyword S = true →
  children_of st (Name.parentname (test_id msg)) = [] →
  (∀ parent,
      tests_by_id (record msg st) !! Name.parentname (test_id msg)
        = Some parent →
      get_subtype parent ≠ Some S) →
  format_test msg "" st
  = (record msg st, Ok (test_line msg (TestSubType.name S))).
Proof.
  intros Hty Hsub HS Hfirst Hparent.
  rewrite (format_test_step color dedent textwrap_indent type_attribute msg S) by done.
  assert (sibling_test msg S st = false) as ->.
  { unfold sibling_test. by rewrite Hfirst. }
  assert (parent_test msg S st = false) as ->; [|done].
  unfold parent_test.
  destruct (tests_by_id _ !! _) as [parent|] eqn:E; [|done].
  by rewrite (bool_decide_eq_false_2 (get_subtype parent = Some S))
    by by apply Hparent.
Qed.

End Keywords.

Lemma keyword_kept_after_sibling_witness :
  Short.format_test Sample.color Sample.dedent Sample.textwrap_indent
    Sample.type_attribute
    Sample.when_2 "" (Short.record Sample.given_1 (Short.record Sample.feature_A Short.init))
  = (Short.record Sample.when_2
       (Short.record Sample.given_1 (Short.record Sample.feature_A Short.init)),
     Ok ("  When act" +:+ Py.nl)).
Proof.
  apply (keyword_kept_after_sibling Sample.color Sample.dedent
           Sample.textwrap_indent Sample.type_attribute Sample.when_2 TestSubType.When
           Sample.given_1);
    try reflexivity.
  left. discriminate.
Defined.

Lemma first_step_keeps_keyword_witness :
  Short.format_test Sample.color Sample.dedent Sample.textwrap_indent
    Sample.type_attribute
    Sample.given_1 "" (Short.record Sample.feature_A Short.init)
  = (Short.record Sample.given_1 (Short.record Sample.feature_A Short.init),
     Ok ("  Given setup" +:+ Py.nl)).
Proof.
  apply (first_step_keeps_keyword Sample.color Sample.dedent
           Sample.textwrap_indent Sample.type_attribute Sample.given_1 TestSubType.Given);
    try reflexivity.
  intros parent. vm_compute. intros [= <-]. discriminate.
Defined.

Section TransformEdges.

Import Short Tracker Invariant.

Variable color : string → string → list string → string.
Variable cursor_up : string.
Variable dedent : string → string.
Variable textwrap_indent : string → string → string.
Variable SKIP : Z.
Variable show_skipped : bool.
Variable type_attribute : string → bool.

#[local] Abbreviation send :=
  (Short.send color cursor_up dedent textwrap_indent SKIP show_skipped
     type_attribute).
#[local] Abbreviation run :=
  (Short.run color cursor_up dedent textwrap_indent SKIP show_skipped
     type_attribute).

Lemma formatters_test keyword :
  formatters keyword = Some FormatTest
  ↔ keyword = Message.name Message.TEST.
Proof.
  unfold formatters. split.
  - destruct (String.eqb_spec keyword (Message.name Message.INPUT)); [done |].
    destruct (String.eqb_spec keyword (Message.name Message.TEST)); [done |].
    destruct (String.eqb_spec keyword (Message.name Message.RESULT)); [done |].
    by destruct (String.eqb_spec keyword (Message.name Message.ATTRIBUTE)).
  - by intros ->.
Qed.

(** The state after a message is sent: it is recorded if it is a [TEST]
    message that is not suppressed, and it becomes the last message if a
    text was yielded for it. *)
Lemma send_state msg st :
  (send msg st).1
  = match (send msg st).2 with
    | Ok (Some _) =>
        with_last_message msg
          (if bool_decide (message_keyword msg = Message.name Message.TEST)
           then record msg st else st)
    | Ok None => st
    | Raise _ => record msg st
    end.
Proof.
  unfold Short.send.
  destruct (formatters (message_keyword msg)) as [f|] eqn:Hf; [|done].
  destruct (suppressed SKIP show_skipped msg); [done |].
  destruct f; simpl.
  - rewrite bool_decide_eq_false_2; [done |].
    intros Hkind%formatters_test. congruence.
  - apply formatters_test in Hf.
    rewrite bool_decide_eq_true_2 by done.
    unfold Short.format_test. by destruct (get_type type_attribute msg).
  - rewrite bool_decide_eq_false_2; [done |].
    intros Hkind%formatters_test. congruence.
  - rewrite bool_decide_eq_false_2; [done |].
    intros Hkind%formatters_test. congruence.
Qed.

(** X3.  The transform yields nothing for a message exactly when the kind
    of the message has no formatter, or the message has the skip flag
    and skipped messages are not shown; [TEST] messages that are dropped
    so are not recorded either. *)
Theorem send_drops_iff msg st :
  ((send msg st).2 = Ok None
   ↔ formatters (message_keyword msg) = None
     ∨ suppressed SKIP show_skipped msg = true)
  ∧ ((send msg st).2 = Ok None → (send msg st).1 = st).
Proof.
  split.
  - unfold Short.send.
    destruct (formatters (message_keyword msg)) as [f|]; [|by split; [left|]].
    destruct (suppressed SKIP show_skipped msg); [by split; [right|] |].
    destruct (call _ _ _ _ _ f msg st) as [st1 [out|e]]; simpl;
      split; [done | intros [?|?]; done | done | intros [?|?]; done].
  - intros Hnone. rewrite send_state. by rewrite Hnone.
Qed.

(** X4.  The transform raises for a message exactly when it is a [TEST]
    message that is not suppressed and whose type names nothing in the
    class [TestType], neither a member nor another attribute of the
    class; the exception is the [AttributeError] of that type.  The
    message is recorded in the tracker all the same, and [last_message]
    stays as it was. *)
Theorem send_raises_iff msg st e :
  ((send msg st).2 = Raise e
   ↔ message_keyword msg = Message.name Message.TEST
     ∧ suppressed SKIP show_skipped msg = false
     ∧ TestType.of_name (test_type msg) = None
     ∧ type_attribute (test_type msg) = false
     ∧ e = AttributeError (test_type msg))
  ∧ ((send msg st).2 = Raise e →
     (send msg st).1 = record msg st
     ∧ last_message (send msg st).1 = last_message st).
Proof.
  split.
  - unfold Short.send.
    destruct (formatters (message_keyword msg)) as [f|] eqn:Hf.
    + destruct (suppressed SKIP show_skipped msg).
      { split; [done | by intros (_ & ? & _)]. }
      destruct f; simpl;
        try (split; [done |];
             intros (Hkind%formatters_test & _); congruence).
      apply formatters_test in Hf.
      unfold Short.format_test, get_type.
      destruct (TestType.of_name (test_type msg)); simpl.
      * split; [done | by intros (_ & _ & ? & _)].
      * destruct (type_attribute (test_type msg)); simpl.
        -- split; [done | by intros (_ & _ & _ & ? & _)].
        -- split; [by intros [= <-] | by intros (_ & _ & _ & _ & ->)].
    + split; [done |].
      intros (Hkind%formatters_test & _). congruence.
  - intros Hraise. rewrite send_state. by rewrite Hraise.
Qed.

(** X5.  Only [TEST] messages touch the tracker: a message of any other
    kind leaves the map of tests by id and the map of tests by parent as
    they were, whether a text is yielded for it or not. *)
Theorem other_kinds_keep_tracker msg st :
  message_keyword msg ≠ Message.name Message.TEST →
  tests_by_id (send msg st).1 = tests_by_id st
  ∧ tests_by_parent (send msg st).1 = tests_by_parent st.
Proof.
  intros Hkind. unfold Short.send.
  destruct (formatters (message_keyword msg)) as [f|] eqn:Hf; [|done].
  destruct (suppressed SKIP show_skipped msg); [done |].
  destruct f; simpl; try done.
  by apply formatters_test in Hf.
Qed.

Lemma grows_record msg st :
  (∀ id, is_Some (tests_by_id st !! id) →
         is_Some (tests_by_id (record msg st) !! id))
  ∧ (∀ parent_id,
        children_of st parent_id `prefix_of` children_of (record msg st) parent_id).
Proof.
  split.
  - intros id Hid. unfold record; simpl.
    destruct (decide (test_id msg = id)) as [<-|Hne].
    + by rewrite lookup_insert_eq.
    + by rewrite lookup_insert_ne.
  - intros p. destruct (decide (p = Name.parentname (test_id msg))) as [->|Hne].
    + rewrite children_of_record_parent. by apply prefix_app_r.
    + by rewrite children_of_record_other.
Qed.

Lemma grows_send msg st :
  (∀ id, is_Some (tests_by_id st !! id) →
         is_Some (tests_by_id (send msg st).1 !! id))
  ∧ (∀ parent_id,
        children_of st parent_id `prefix_of` children_of (send msg st).1 parent_id).
Proof.
  rewrite send_state.
  destruct ((send msg st).2) as [[out|]|e]; [| done | apply grows_record].
  destruct (bool_decide _); [apply grows_record | done].
Qed.

(** X6.  The tracker only grows while a log is rendered: an id that is
    recorded stays recorded, and the list of children of every parent is
    extended at its end, never shortened or reordered. *)
Theorem tracker_grows lines st :
  (∀ id, is_Some (tests_by_id st !! id) →
         is_Some (tests_by_id (run lines st).1.1 !! id))
  ∧ (∀ parent_id,
        children_of st parent_id
        `prefix_of` children_of (run lines st).1.1 parent_id).
Proof.
  revert st. induction lines as [|line lines IH]; intros st; [done |].
  simpl. pose proof (grows_send line st) as [Hids Hlists].
  destruct (send line st) as [st1 [out|e]]; [|done].
  specialize (IH st1) as [IHids IHlists].
  destruct (run lines st1) as [[st2 outs] e] eqn:Hrun; simpl in *.
  split.
  - intros id Hid. by apply IHids, Hids.
  - intros p. etrans; [apply Hlists | apply IHlists].
Qed.

Lemma consistent_init : consistent init.
Proof.
  split.
  - intros id m. unfold init; simpl. by rewrite lookup_empty.
  - intros p m. unfold children_of, init; simpl. rewrite lookup_empty; simpl.
    by intros ?%elem_of_nil.
Qed.

Lemma consistent_record msg st : consistent st → consistent (record msg st).
Proof.
  intros [Hids Hlists]. pose proof (grows_record msg st) as [Gids Glists].
  split.
  - intros id m Hm. unfold record in Hm; simpl in Hm.
    destruct (decide (test_id msg = id)) as [<-|Hne].
    + rewrite lookup_insert_eq in Hm. injection Hm as <-.
      split; [done |].
      rewrite children_of_record_parent.
      apply elem_of_app. right. by apply list_elem_of_singleton.
    + rewrite lookup_insert_ne in Hm by done.
      destruct (Hids id m Hm) as [Hid Hin]. split; [done |].
      by eapply elem_of_prefix; [|apply Glists].
  - intros p m Hm.
    destruct (decide (p = Name.parentname (test_id msg))) as [->|Hne].
    + rewrite children_of_record_parent in Hm.
      apply elem_of_app in Hm as [Hm|Hm%list_elem_of_singleton].
      * destruct (Hlists _ m Hm) as [Hp Hsome]. split; [done |].
        by apply Gids.
      * subst m. split; [done |]. by rewrite tests_by_id_record.
    + rewrite children_of_record_other in Hm by done.
      destruct (Hlists _ m Hm) as [Hp Hsome]. split; [done |].
      by apply Gids.
Qed.

Lemma consistent_send msg st : consistent st → consistent (send msg st).1.
Proof.
  intros Hst. rewrite send_state.
  destruct ((send msg st).2) as [[out|]|e];
    [| done | by apply consistent_record].
  destruct (bool_decide _); [exact (consistent_record msg st Hst) | exact Hst].
Qed.

(** X7.  The two maps of the tracker stay in step while a log is rendered
    from the initial state: every message stored under an id carries that
    id and stands in the list of children of its parent, and every message
    in a list of children has that parent and an entry under its id. *)
Theorem tracker_consistent lines : consistent (run lines init).1.1.
Proof.
  assert (∀ st, consistent st → consistent (run lines st).1.1) as Hrun.
  { induction lines as [|line lines IH]; intros st Hst; [done |].
    simpl. pose proof (consistent_send line st Hst) as Hnext.
    destruct (send line st) as [st1 [out|e]]; [|done].
    specialize (IH st1 Hnext).
    by destruct (run lines st1) as [[??]?]. }
  apply Hrun, consistent_init.
Qed.

(** X8.  Every text that the transform yields ends with a line feed, so
    the texts can be written one after the other. *)
Theorem yielded_text_ends_line msg st :
  match (send msg st).2 with
  | Ok (Some out) => ends_line out
  | _ => True
  end.
Proof.
  unfold Short.send, ends_line.
  destruct (formatters (message_keyword msg)) as [f|]; [|done].
  destruct (suppressed SKIP show_skipped msg); [done |].
  destruct f; simpl.
  - unfold Short.format_input. eexists. by rewrite <- !str_app_assoc.
  - unfold Short.format_test. destruct (get_type type_attribute msg); simpl; [|done].
    unfold Short.test_line, Short.format_test_description.
    destruct (Py.truthy (test_description msg));
      eexists; by rewrite <- !str_app_assoc.
  - unfold Short.format_result. by eexists.
  - unfold Short.format_attribute. by eexists.
Qed.

End TransformEdges.

Lemma other_kinds_keep_tracker_witness :
  Short.tests_by_id
    (Sample.send Sample.attribute_1 (Short.record Sample.feature_A Short.init)).1
  = Short.tests_by_id (Short.record Sample.feature_A Short.init)
  ∧ Short.tests_by_parent
      (Sample.send Sample.attribute_1 (Short.record Sample.feature_A Short.init)).1
    = Short.tests_by_parent (Short.record Sample.feature_A Short.init).
Proof.
  apply (other_kinds_keep_tracker Sample.color Sample.cursor_up Sample.dedent
           Sample.textwrap_indent Sample.SKIP true Sample.type_attribute).
  discriminate.
Defined.

(** * Texts of several lines *)

Lemma split1_first c a b :
  Py.count c a = 0 → Py.split1 c (a +:+ String c b) = (a, b).
Proof.
  induction a as [|d a IH].
  - intros _. rewrite str_app_nil_l. cbn. by rewrite Ascii.eqb_refl.
  - rewrite str_app_cons. cbn [Py.count Py.split1].
    pose proof (count_nonneg c a).
    destruct (Ascii.eqb d c); [lia |].
    intros Hcount. by rewrite IH by lia.
Qed.

Lemma count_rstrip c p a :
  Py.count c a = 0 → Py.count c (Py.rstrip_by p a) = 0.
Proof.
  induction a as [|d a IH]; [done |].
  cbn [Py.count Py.rstrip_by]. pose proof (count_nonneg c a).
  destruct (Ascii.eqb d c) eqn:E; [lia |].
  intros Hcount. specialize (IH ltac:(lia)).
  destruct (Py.rstrip_by p a) as [|x t].
  - destruct (p d); [done |]. cbn. by rewrite E.
  - cbn [Py.count]. rewrite E. exact IH.
Qed.

Lemma rstrip_by_idem p s :
  Py.rstrip_by p (Py.rstrip_by p s) = Py.rstrip_by p s.
Proof.
  induction s as [|c s IH]; [done |].
  cbn [Py.rstrip_by].
  destruct (Py.rstrip_by p s) as [|x t] eqn:E.
  - destruct (p c) eqn:Hc; [done |]. cbn. by rewrite Hc.
  - cbn [Py.rstrip_by]. cbn [Py.rstrip_by] in IH. by rewrite IH.
Qed.

Lemma rstrip_by_lstrip p t :
  Py.rstrip_by p t = t →
  Py.rstrip_by p (Py.lstrip_by p t) = Py.lstrip_by p t.
Proof.
  induction t as [|c t IH]; [done |].
  intros Hfixed. cbn [Py.lstrip_by]. destruct (p c) eqn:Hc; [|done].
  apply IH. cbn [Py.rstrip_by] in Hfixed. rewrite Hc in Hfixed.
  destruct (Py.rstrip_by p t) as [|x t'] eqn:E; [done |].
  by injection Hfixed.
Qed.

Lemma rstrip_strip s : Py.rstrip (Py.strip s) = Py.strip s.
Proof. apply rstrip_by_lstrip, rstrip_by_idem. Qed.

Section OneLine.

Variable dedent : string → string.
Variable textwrap_indent : string → string → string.

(** X9.  The short format formats a text of several lines as the report
    does and then indents it two spaces deeper than the given indent:
    the two [format_multiline] of the sources agree on the text they
    make. *)
Theorem format_multiline_agree text indent :
  Short.format_multiline dedent textwrap_indent text indent
  = textwrap_indent (Specification.format_multiline dedent text)
      (indent +:+ "  ").
Proof.
  unfold Short.format_multiline, Specification.format_multiline,
    Specification.newline.
  by destruct (Py.split1 "010" (Py.rstrip text +:+ Py.nl)).
Qed.

Lemma format_multiline_line text :
  dedent "" = "" →
  Py.count "010" text = 0 →
  Specification.format_multiline dedent text = Py.strip text.
Proof.
  intros Hdedent Hline.
  unfold Specification.format_multiline, Specification.newline, Py.nl.
  rewrite split1_first by by apply count_rstrip.
  assert (Py.strip (Py.rstrip text) = Py.strip text) as ->.
  { unfold Py.strip, Py.rstrip. by rewrite rstrip_by_idem. }
  change (Py.rstrip "") with "". rewrite Hdedent.
  destruct (Py.strip text) as [|c F] eqn:E.
  - done.
  - cbn [Py.truthy]. rewrite str_app_nil_r.
    unfold Py.rstrip. rewrite rstrip_by_snoc.
    change (Py.is_space "010") with true. cbv iota.
    rewrite <- E. apply rstrip_strip.
Qed.

(** X10.  A text without a line feed is formatted as the text without
    the white space around it: the report shows it as it is, and the
    short format puts it on one line, two spaces deeper than the given
    indent.  ([textwrap.dedent] leaves the empty text empty.) *)
Theorem format_multiline_one_line text indent :
  dedent "" = "" →
  Py.count "010" text = 0 →
  Specification.format_multiline dedent text = Py.strip text
  ∧ Short.format_multiline dedent textwrap_indent text indent
    = textwrap_indent (Py.strip text) (indent +:+ "  ").
Proof.
  intros Hdedent Hline. split.
  - by apply format_multiline_line.
  - unfold Short.format_multiline.
    pose proof (format_multiline_line text Hdedent Hline) as Hreport.
    unfold Specification.format_multiline, Specification.newline in Hreport.
    destruct (Py.split1 "010" (Py.rstrip text +:+ Py.nl)).
    by rewrite Hreport.
Qed.

End OneLine.

Lemma format_multiline_one_line_witness :
  Specification.format_multiline Sample.dedent "  one line  " = "one line"
  ∧ Short.format_multiline Sample.dedent Sample.textwrap_indent
      "  one line  " "  "
    = "    one line".
Proof.
  apply (format_multiline_one_line Sample.dedent Sample.textwrap_indent
           "  one line  " "  "); reflexivity.
Defined.

(** * Further properties of the specification report *)

Section Anchors.

Import Specification Report Sections.

Lemma lower_not_upper c : Py.is_upper (Py.lower_char c) = false.
Proof. destruct c as [[] [] [] [] [] [] [] []]; reflexivity. Qed.

Lemma anchor_char_fixed c :
  anchor_char c = true →
  Py.lower_char c = c ∧ kept c = true ∧ Py.is_space c = false.
Proof. destruct c as [[] [] [] [] [] [] [] []]; done. Qed.

Lemma kept_anchor_char c :
  kept c = true → Py.is_upper c = false → Py.is_space c = false →
  anchor_char c = true.
Proof.
  unfold kept, is_alphanumeric, anchor_char.
  intros Hkept Hupper Hspace. rewrite Hupper, Hspace in Hkept.
  by destruct (Py.is_lower c), (Py.is_digit c),
       (Ascii.eqb c "-"), (Ascii.eqb c "_").
Qed.

Lemma keep_lower_chars h :
  all_chars (fun c => kept c && negb (Py.is_upper c))
    (keep (Py.lower h)) = true.
Proof.
  induction h as [|c h IH]; [done |].
  cbn [Py.lower Py.map keep]. fold (Py.lower h).
  destruct (kept (Py.lower_char c)) eqn:Hkept; [|done].
  cbn [all_chars]. by rewrite Hkept, lower_not_upper, IH.
Qed.

Lemma hyphenate_chars s :
  all_chars (fun c => kept c && negb (Py.is_upper c)) s = true →
  all_chars anchor_char (hyphenate s) = true.
Proof.
  induction s as [|c s IH]; [done |].
  cbn [all_chars]. intros [[Hkept Hupper%negb_true_iff]%andb_prop Hs]%andb_prop.
  specialize (IH Hs).
  destruct (Py.is_space c) eqn:Hc.
  - destruct s as [|d s].
    + cbn. by rewrite Hc.
    + rewrite (hyphenate_space_cons c d s Hc).
      destruct (Py.is_space d); [done |].
      cbn [all_chars]. by rewrite IH.
  - rewrite hyphenate_other by done.
    cbn [all_chars]. by rewrite kept_anchor_char, IH.
Qed.

Lemma anchor_chars_of heading :
  all_chars anchor_char (anchor heading) = true.
Proof.
  rewrite anchor_slug. apply hyphenate_chars, keep_lower_chars.
Qed.

(** X11.  An anchor is made of the lower-case letters [a-z], the digits,
    the hyphen and the underscore only, whatever the heading: it has no
    capital, no white space and no punctuation. *)
Theorem anchor_chars heading :
  all_chars anchor_char (anchor heading) = true
  ∧ all_chars (fun c => negb (Py.is_upper c) && negb (Py.is_space c))
      (anchor heading) = true.
Proof.
  pose proof (anchor_chars_of heading) as Hall. split; [done |].
  induction (anchor heading) as [|c s IH]; [done |].
  cbn [all_chars] in *. apply andb_prop in Hall as [Hc Hs].
  rewrite (IH Hs), andb_true_r.
  destruct (anchor_char_fixed c Hc) as (_ & _ & ->).
  clear -Hc. by destruct c as [[] [] [] [] [] [] [] []].
Qed.

Lemma slug_fixed s : all_chars anchor_char s = true → slug s = s.
Proof.
  intros Hs. unfold slug.
  assert (Py.lower s = s ∧ keep s = s ∧ hyphenate s = s) as (-> & -> & ->);
    [|done].
  induction s as [|c s IH]; [done |].
  cbn [all_chars] in Hs. apply andb_prop in Hs as [Hc Hs].
  destruct (IH Hs) as (IHlower & IHkeep & IHhyphen).
  destruct (anchor_char_fixed c Hc) as (Hlower & Hkept & Hspace).
  split_and!.
  - cbn [Py.lower Py.map]. fold (Py.lower s). by rewrite Hlower, IHlower.
  - cbn [keep]. by rewrite Hkept, IHkeep.
  - by rewrite hyphenate_other, IHhyphen.
Qed.

(** X12.  Making the anchor of an anchor changes nothing. *)
Theorem anchor_idempotent heading :
  anchor (anchor heading) = anchor heading.
Proof.
  rewrite (anchor_slug (anchor heading)).
  apply slug_fixed, anchor_chars_of.
Qed.

End Anchors.

Lemma section_numbers_bad good bad rest i e :
  Forall (fun p => Report.is_numeral p = true) good →
  i ≠ 0%nat →
  Py.int bad = Raise e →
  Specification.section_numbers i (good ++ bad :: rest) = Raise e.
Proof.
  intros Hgood. revert i. induction Hgood as [|p good Hp Hgood IH]; intros i Hi Hbad.
  - cbn [app Specification.section_numbers].
    rewrite bool_decide_eq_false_2 by done. by rewrite Hbad.
  - cbn [app Specification.section_numbers].
    rewrite bool_decide_eq_false_2 by done.
    rewrite int_numeral by done.
    cbn [mbind result_bind mret result_ret].
    by rewrite IH.
Qed.

Lemma str_no_dot n : Py.count "." (Py.str n) = 0.
Proof.
  unfold Py.str.
  assert (∀ d, Py.count "." (NilEmpty.string_of_uint d) = 0) as Huint.
  { induction d; cbn; by rewrite ?IHd. }
  assert (∀ d, Py.count "." (NilZero.string_of_uint d) = 0) as Hzero.
  { intros []; try apply Huint. done. }
  destruct (Z.to_int n); cbn; by rewrite Hzero.
Qed.

Lemma split_join c l :
  Forall (fun x => Py.count c x = 0) l →
  l ≠ [] →
  Py.split c (Py.join (String c "") l) = l.
Proof.
  induction 1 as [|x l Hx Hl IH]; [done |]. intros _.
  destruct l as [|y l].
  - cbn [Py.join]. by apply split_last_segment.
  - change (Py.join (String c "") (x :: y :: l))
      with (x +:+ String c (Py.join (String c "") (y :: l))).
    rewrite split_segment by done. by rewrite IH.
Qed.

Section ReportEdges.

Import Specification Report Sections.

Variable upper : string → string.
Variable dedent : string → string.
Variable textwrap_indent : string → string → string.

#[local] Abbreviation section_frame :=
  (Specification.section_frame upper dedent textwrap_indent).



End ReportEdges.



(** * The company of a report and the map of messages *)

Section CompanyBlocks.

Import Company.

Variable b64encode : list Byte.byte → string.
Variable copyright_notice : string → string.

(** X17.  The front matter of a report follows the arguments of the
    command: there is a copyright block exactly when a name that is not
    empty is given, a confidential block exactly when the flag is set,
    and a logo block exactly when a logo file is given that is not
    empty. *)
Theorem company_blocks args :
  (format_copyright copyright_notice (company args) = ""
   ↔ Py.truthy (copyright args) = false)
  ∧ (format_confidential (company args) = "" ↔ confidential args = false)
  ∧ (format_logo b64encode (company args) = ""
     ↔ logo args = None ∨ logo args = Some []).
Proof.
  unfold format_copyright, format_confidential, format_logo, company; simpl.
  split_and!.
  - destruct (Py.truthy (copyright args)) eqn:Hname; [|done].
    by rewrite Hname.
  - by destruct (confidential args).
  - destruct (logo args) as [[|b data]|]; split; try done;
      [by right | by intros [?|?] | by left].
Qed.

End CompanyBlocks.

(** X18.  [MessageMap] has a field for every member of [Message] but
    [EXAMPLE], in the order of the values of the members: the position of
    a field is the value of its member up to [REQUIREMENT], and one less
    than the value for [NODE], [MAP] and [STOP]. *)
Theorem message_map_positions (m : Message.t) :
  MessageMap.position (Message.name m)
  = match m with
    | Message.EXAMPLE => None
    | _ =>
        Some (if (Message.value m <? Message.value Message.EXAMPLE)%Z
              then Message.value m else Message.value m - 1)
    end.
Proof. destruct m; reflexivity. Qed.

(** * Runs of steps and of attributes *)

Section Cascades.

Import Short Tracker Lines.

Variable color : string → string → list string → string.
Variable cursor_up : string.
Variable dedent : string → string.
Variable textwrap_indent : string → string → string.
Variable SKIP : Z.
Variable show_skipped : bool.
Variable type_attribute : string → bool.

#[local] Abbreviation test_line := (Short.test_line color dedent textwrap_indent).
#[local] Abbreviation send :=
  (Short.send color cursor_up dedent textwrap_indent SKIP show_skipped
     type_attribute).
#[local] Abbreviation run :=
  (Short.run color cursor_up dedent textwrap_indent SKIP show_skipped
     type_attribute).

(** The steps that follow a step [prev] of their subtype, when none of
    them has children: all are rendered with [And]. *)
Lemma cascade_after S P ms :
  TestSubType.is_step_keyword S = true →
  Forall (step_under S P) ms →
  Forall (fun m => suppressed SKIP show_skipped m = false) ms →
  ∀ prev st,
    wf st →
    last (children_of st P) = Some prev →
    get_subtype prev = Some S →
    test_id prev ≠ P →
    children_of st (test_id prev) = [] →
    Forall (fun m => children_of st (test_id m) = [] ∧ test_id m ≠ P) ms →
    (run ms st).1.2 = List.map (fun m => Some (test_line m "And")) ms.
Proof.
  intros HS Hsteps Hshown.
  induction ms as [|m ms IH]; intros prev st Hwf Hlast Hsub Hprev Hleaf Hleaves;
    [done |].
  apply Forall_cons in Hsteps as [Hm Hsteps].
  apply Forall_cons in Hshown as [Sm Hshown].
  apply Forall_cons in Hleaves as [[Lm Nm] Hleaves].
  pose proof Hm as (_ & _ & Hsubm & HP).
  cbn [Short.run List.map].
  rewrite (send_step color cursor_up dedent textwrap_indent SKIP show_skipped
             type_attribute m S P) by done.
  assert (sibling_test m S st = true) as ->.
  { apply sibling_test_spec; [done |]. exists prev.
    rewrite HP. split_and!; [done | done |].
    rewrite children_of_record_other by by rewrite HP.
    done. }
  cbn [orb].
  specialize (IH Hsteps Hshown m (with_last_message m (record m st))).
  destruct (run ms (with_last_message m (record m st))) as [[st2 outs] e].
  cbn [fst snd] in *. f_equal.
  apply IH.
  - exact (wf_record m st Hwf).
  - change (children_of (with_last_message m (record m st)))
      with (children_of (record m st)).
    rewrite <- HP, children_of_record_parent. apply last_snoc.
  - done.
  - done.
  - change (children_of (with_last_message m (record m st)))
      with (children_of (record m st)).
    rewrite children_of_record_other by by rewrite HP. done.
  - eapply Forall_impl; [exact Hleaves |].
    intros x [Lx Nx]. split; [|done].
    change (children_of (with_last_message m (record m st)))
      with (children_of (record m st)).
    rewrite children_of_record_other by by rewrite HP. done.
Qed.

(** X19.  A run of steps of one subtype (Given, When, Then, By, But or
    Finally) under one parent, none of which has children, is rendered
    as a cascade of any length: every step after the first one gets the
    keyword [And], and the first one gets [And] or the name of the
    subtype. *)
Theorem and_cascade S P m ms st :
  wf st →
  TestSubType.is_step_keyword S = true →
  Forall (step_under S P) (m :: ms) →
  Forall (fun x => suppressed SKIP show_skipped x = false) (m :: ms) →
  Forall (fun x => children_of st (test_id x) = [] ∧ test_id x ≠ P) (m :: ms) →
  ∃ first,
    (run (m :: ms) st).1.2
    = Some (test_line m first)
        :: List.map (fun x => Some (test_line x "And")) ms
    ∧ (first = "And" ∨ first = TestSubType.name S).
Proof.
  intros Hwf HS Hsteps Hshown Hleaves.
  apply Forall_cons in Hsteps as [Hm Hsteps].
  apply Forall_cons in Hshown as [Sm Hshown].
  apply Forall_cons in Hleaves as [[Lm Nm] Hleaves].
  pose proof Hm as (_ & _ & Hsubm & HP).
  exists (if sibling_test m S st || parent_test m S st
          then "And" else TestSubType.name S).
  split; [|destruct (_ || _); [by left | by right]].
  cbn [Short.run].
  rewrite (send_step color cursor_up dedent textwrap_indent SKIP show_skipped
             type_attribute m S P) by done.
  pose proof (cascade_after S P ms HS Hsteps Hshown m
                (with_last_message m (record m st))) as Hrest.
  destruct (run ms (with_last_message m (record m st))) as [[st2 outs] e].
  cbn [fst snd] in *. f_equal.
  apply Hrest.
  - exact (wf_record m st Hwf).
  - change (children_of (with_last_message m (record m st)))
      with (children_of (record m st)).
    rewrite <- HP, children_of_record_parent. apply last_snoc.
  - done.
  - done.
  - change (children_of (with_last_message m (record m st)))
      with (children_of (record m st)).
    rewrite children_of_record_other by by rewrite HP. done.
  - eapply Forall_impl; [exact Hleaves |].
    intros x [Lx Nx]. split; [|done].
    change (children_of (with_last_message m (record m st)))
      with (children_of (record m st)).
    rewrite children_of_record_other by by rewrite HP. done.
Qed.

(** The attributes that follow an attribute: none gets a header. *)
Lemma attributes_after attrs :
  Forall (fun m => message_keyword m = Message.name Message.ATTRIBUTE) attrs →
  Forall (fun m => suppressed SKIP show_skipped m = false) attrs →
  ∀ st,
    header_due st = false →
    (run attrs st).1.2
    = List.map (fun m => Some (attribute_pair color m)) attrs.
Proof.
  intros Hkind Hshown.
  induction attrs as [|a attrs IH]; intros st Hdue; [done |].
  apply Forall_cons in Hkind as [Ka Hkind].
  apply Forall_cons in Hshown as [Sa Hshown].
  cbn [Short.run List.map].
  rewrite (send_attribute color cursor_up dedent textwrap_indent SKIP
             show_skipped type_attribute a) by done.
  rewrite format_attribute_text, Hdue, str_app_nil_l.
  specialize (IH Hkind Hshown (with_last_message a st)).
  destruct (run attrs (with_last_message a st)) as [[st2 outs] e].
  cbn [fst snd] in *. f_equal. apply IH.
  unfold header_due; simpl. by rewrite Ka.
Qed.

(** X20.  Attributes that come one after the other, however many, after
    a rendered message of another kind make one block: the header stands
    above the first one only, and each attribute gives its name and its
    value. *)
Theorem attributes_grouped a attrs last st :
  last_message st = Some last →
  message_keyword last ≠ Message.name Message.ATTRIBUTE →
  Forall (fun m => message_keyword m = Message.name Message.ATTRIBUTE)
    (a :: attrs) →
  Forall (fun m => suppressed SKIP show_skipped m = false) (a :: attrs) →
  (run (a :: attrs) st).1.2
  = Some (attribute_header color a +:+ Py.nl +:+ attribute_pair color a)
      :: List.map (fun m => Some (attribute_pair color m)) attrs.
Proof.
  intros Hlast Hother Hkind Hshown.
  apply Forall_cons in Hkind as [Ka Hkind].
  apply Forall_cons in Hshown as [Sa Hshown].
  cbn [Short.run].
  rewrite (send_attribute color cursor_up dedent textwrap_indent SKIP
             show_skipped type_attribute a) by done.
  rewrite format_attribute_text.
  assert (header_due st = true) as ->.
  { unfold header_due. rewrite Hlast.
    apply String.eqb_neq in Hother. by rewrite Hother. }
  pose proof (attributes_after attrs Hkind Hshown (with_last_message a st))
    as Hrest.
  destruct (run attrs (with_last_message a st)) as [[st2 outs] e].
  cbn [fst snd] in *. rewrite str_app_assoc. f_equal. apply Hrest.
  unfold header_due; simpl. by rewrite Ka.
Qed.

End Cascades.

Lemma and_cascade_witness :
  ∃ first,
    (Sample.run [Sample.given_1; Sample.given_2; Sample.given_3;
                 Sample.given_4]
       (Short.record Sample.feature_A Short.init)).1.2
    = Some (Short.test_line Sample.color Sample.dedent Sample.textwrap_indent
              Sample.given_1 first)
        :: [Some ("  And more setup" +:+ Py.nl);
            Some ("  And even more setup" +:+ Py.nl);
            Some ("  And the last setup" +:+ Py.nl)]
    ∧ (first = "And" ∨ first = "Given").
Proof.
  apply (and_cascade Sample.color Sample.cursor_up Sample.dedent
           Sample.textwrap_indent Sample.SKIP true Sample.type_attribute TestSubType.Given "/A"
           Sample.given_1 [Sample.given_2; Sample.given_3; Sample.given_4]).
  - apply wf_record, wf_init.
  - reflexivity.
  - repeat constructor.
  - repeat constructor.
  - repeat constructor; discriminate.
Defined.

Lemma attributes_grouped_witness :
  (Sample.run [Sample.attribute_1; Sample.attribute_2; Sample.attribute_3]
     (Sample.send Sample.feature_A Short.init).1).1.2
  = [Some ("  Attributes" +:+ Py.nl +:+ "    owner" +:+ Py.nl
             +:+ "      me" +:+ Py.nl);
     Some ("    area" +:+ Py.nl +:+ "      core" +:+ Py.nl);
     Some ("    level" +:+ Py.nl +:+ "      high" +:+ Py.nl)].
Proof.
  apply (attributes_grouped Sample.color Sample.cursor_up Sample.dedent
           Sample.textwrap_indent Sample.SKIP true Sample.type_attribute
           Sample.attribute_1 [Sample.attribute_2; Sample.attribute_3]
           Sample.feature_A).
  - reflexivity.
  - discriminate.
  - repeat constructor.
  - repeat constructor.
Defined.

Lemma send_drops_iff_witness :
  (Sample.send (Sample.note_msg "/A") (Short.record Sample.feature_A Short.init)).2
  = Ok None
  ∧ (Sample.send (Sample.note_msg "/A")
       (Short.record Sample.feature_A Short.init)).1
    = Short.record Sample.feature_A Short.init.
Proof.
  destruct (send_drops_iff Sample.color Sample.cursor_up Sample.dedent
              Sample.textwrap_indent Sample.SKIP true Sample.type_attribute (Sample.note_msg "/A")
              (Short.record Sample.feature_A Short.init)) as [[_ Hdrop] Hstate].
  assert ((Sample.send (Sample.note_msg "/A")
             (Short.record Sample.feature_A Short.init)).2 = Ok None) as Hnone.
  { apply Hdrop. left. reflexivity. }
  split; [exact Hnone | exact (Hstate Hnone)].
Defined.

Lemma send_raises_iff_witness :
  (Sample.send Sample.untyped Short.init).2 = Raise (AttributeError "Bogus")
  ∧ (Sample.send Sample.untyped Short.init).1
    = Short.record Sample.untyped Short.init
  ∧ Short.last_message (Sample.send Sample.untyped Short.init).1 = None
  ∧ (Sample.send Sample.doc_typed Short.init).2
    = Ok (Some ("Test B" +:+ Py.nl)).
Proof.
  destruct (send_raises_iff Sample.color Sample.cursor_up Sample.dedent
              Sample.textwrap_indent Sample.SKIP true Sample.type_attribute
              Sample.untyped Short.init (AttributeError "Bogus"))
    as [[_ Hraise] Hstate].
  assert ((Sample.send Sample.untyped Short.init).2
          = Raise (AttributeError "Bogus")) as Hexn.
  { apply Hraise. repeat split. }
  split_and!; [exact Hexn | exact (proj1 (Hstate Hexn))
               | exact (proj2 (Hstate Hexn)) | reflexivity].
Defined.

Lemma tracker_grows_witness :
  is_Some (Short.tests_by_id
             (Sample.run [Sample.given_1; Sample.given_2]
                (Short.record Sample.feature_A Short.init)).1.1 !! "/A")
  ∧ Short.children_of (Short.record Sample.feature_A Short.init) "/"
    `prefix_of`
    Short.children_of
      (Sample.run [Sample.given_1; Sample.given_2]
         (Short.record Sample.feature_A Short.init)).1.1 "/".
Proof.
  destruct (tracker_grows Sample.color Sample.cursor_up Sample.dedent
              Sample.textwrap_indent Sample.SKIP true Sample.type_attribute
              [Sample.given_1; Sample.given_2]
              (Short.record Sample.feature_A Short.init)) as [Hids Hlists].
  split; [apply Hids | apply Hlists].
  by eexists.
Defined.
